(** * react-dropzone: acceptance policy, file extraction and interaction state

    A shallow embedding of [src/dropzone.tsx].  The pure helpers
    ([accepts], [fileAccepted], [fileMatchSize], [allFilesAccepted], [flatten],
    [reducer], ...) are Rocq functions with the names of the source.  Promises
    are modelled by [option] ([None] is a rejected promise), the hook's
    callbacks by functions from the state they read to the state they
    dispatch. *)

From Stdlib Require Import String Ascii List ZArith Bool Lia DecimalString.
From Stdlib Require Import Permutation.
Import ListNotations.

Local Open Scope string_scope.
Local Open Scope list_scope.
Local Open Scope bool_scope.

#[local] Set Warnings "-register-all".

(** ** JavaScript strings

    A string is a sequence of code units; the model keeps the code units
    0..255, which is where every literal of the source lives. *)
Module JsString.

Definition codeUnit (c : ascii) : nat := nat_of_ascii c.

Definition between (lo hi : nat) (c : ascii) : bool :=
  (lo <=? codeUnit c)%nat && (codeUnit c <=? hi)%nat.

(** Upper-case letters of the range: A-Z, and the Latin-1 letters
    U+00C0..U+00DE without the multiplication sign U+00D7. *)
Definition isUpper (c : ascii) : bool :=
  between 65 90 c || (between 192 222 c && negb (codeUnit c =? 215)%nat).

Definition lowerChar (c : ascii) : ascii :=
  if isUpper c then ascii_of_nat (codeUnit c + 32) else c.

(** [String.prototype.toLowerCase]. *)
Fixpoint toLowerCase (s : string) : string :=
  match s with
  | EmptyString => EmptyString
  | String c rest => String (lowerChar c) (toLowerCase rest)
  end.

(** White space and line terminators, as [trim] strips them: TAB, LF, VT, FF,
    CR, SPACE and NBSP. *)
Definition isWhiteSpace (c : ascii) : bool :=
  between 9 13 c || (codeUnit c =? 32)%nat || (codeUnit c =? 160)%nat.

Fixpoint trimStart (s : string) : string :=
  match s with
  | EmptyString => EmptyString
  | String c rest => if isWhiteSpace c then trimStart rest else s
  end.

Fixpoint allWhiteSpace (s : string) : bool :=
  match s with
  | EmptyString => true
  | String c rest => isWhiteSpace c && allWhiteSpace rest
  end.

Fixpoint trimEnd (s : string) : string :=
  match s with
  | EmptyString => EmptyString
  | String c rest => if allWhiteSpace s then EmptyString else String c (trimEnd rest)
  end.

(** [String.prototype.trim]. *)
Definition trim (s : string) : string := trimEnd (trimStart s).

(** [s.charAt(0) === c]. *)
Definition charAt0Is (c : ascii) (s : string) : bool :=
  match s with
  | EmptyString => false
  | String d _ => Ascii.eqb d c
  end.

(** [String.prototype.endsWith]. *)
Definition endsWith (s suffix : string) : bool :=
  (String.length suffix <=? String.length s)%nat
  && String.eqb (substring (String.length s - String.length suffix) (String.length suffix) s) suffix.

(** [s.split(sep)] for a one-character separator; never the empty list. *)
Fixpoint split (sep : ascii) (s : string) : list string :=
  match s with
  | EmptyString => [EmptyString]
  | String c rest =>
      if Ascii.eqb c sep then EmptyString :: split sep rest
      else match split sep rest with
           | [] => [String c EmptyString]
           | piece :: pieces => String c piece :: pieces
           end
  end.

(** [arr.join(sep)]. *)
Fixpoint join (sep : string) (l : list string) : string :=
  match l with
  | [] => EmptyString
  | [x] => x
  | x :: rest => (x ++ sep ++ join sep rest)%string
  end.

(** The characters the regular expression dot does not match. *)
Definition isLineTerminator (c : ascii) : bool :=
  (codeUnit c =? 10)%nat || (codeUnit c =? 13)%nat.

Fixpoint hasLineTerminator (s : string) : bool :=
  match s with
  | EmptyString => false
  | String c rest => isLineTerminator c || hasLineTerminator rest
  end.

(** [s.replace(/\/.*$/, '')]: the leftmost slash that is followed, up to the end
    of the string, by characters the dot matches, is removed with all that
    follows it. *)
Fixpoint stripSlashTail (s : string) : string :=
  match s with
  | EmptyString => EmptyString
  | String c rest =>
      if Ascii.eqb c "/" && negb (hasLineTerminator rest) then EmptyString
      else String c (stripSlashTail rest)
  end.

(** The class [\w] of regular expressions. *)
Definition isWordChar (c : ascii) : bool :=
  between 48 57 c || between 65 90 c || between 97 122 c || (codeUnit c =? 95)%nat.

Fixpoint allWordChars (s : string) : bool :=
  match s with
  | EmptyString => true
  | String c rest => isWordChar c && allWordChars rest
  end.

(** [s.lastIndexOf('.') !== -1]. *)
Fixpoint hasDot (s : string) : bool :=
  match s with
  | EmptyString => false
  | String c rest => Ascii.eqb c "." || hasDot rest
  end.

(** [arr.pop()] on the result of a split: its last piece. *)
Definition lastPiece (l : list string) : string := last l EmptyString.

(** A number inside a template literal. *)
Definition ofZ (z : Z) : string := NilZero.string_of_int (Z.to_int z).

End JsString.

(** ** Numbers of the size bounds: an integer or [Infinity] (the default
    [maxSize]). *)
Inductive JsNum : Type :=
| Num (z : Z)
| Infinity.

(** [size > bound] and [size < bound] for an integer size. *)
Definition sizeGt (size : Z) (bound : JsNum) : bool :=
  match bound with
  | Num b => (b <? size)%Z
  | Infinity => false
  end.

Definition sizeLt (size : Z) (bound : JsNum) : bool :=
  match bound with
  | Num b => (size <? b)%Z
  | Infinity => true
  end.

(** A bound inside a template literal.  The digits are those JavaScript
    prints for an integer below 10^21; from 10^21 on JavaScript prints the
    exponent form, which is not modelled (it bears on the text of the
    messages only). *)
Definition numToString (n : JsNum) : string :=
  match n with
  | Num z => JsString.ofZ z
  | Infinity => "Infinity"
  end.

(** [n === 1]. *)
Definition isOne (n : JsNum) : bool :=
  match n with
  | Num z => (z =? 1)%Z
  | Infinity => false
  end.

(** ** Files *)

(** [FileWithPath]: a [File] and the read-only [path] the module defines on
    it.  A field that may be missing or undefined is an [option]. *)
Record File : Type := mkFile {
  file_name : string;
  file_type : string;
  file_size : Z;
  file_path : option string;
  file_webkitRelativePath : option string
}.

(** What the acceptance policy reads of the value it is given (a parameter of
    type [any] in the source): a [File] on drop, a [DataTransferItem] while the
    drag is in progress. *)
Class FileLike (A : Type) : Type := {
  get_name : A -> option string;
  get_type : A -> option string;
  get_size : A -> option Z
}.

#[export] Instance File_FileLike : FileLike File := {|
  get_name f := Some (file_name f);
  get_type f := Some (file_type f);
  get_size f := Some (file_size f)
|}.

(** [v || ''] *)
Definition orEmpty (v : option string) : string :=
  match v with
  | Some s => s
  | None => EmptyString
  end.

(** ** Acceptance policy *)

(** The [acceptedFiles] argument of [accepts]: undefined, a comma separated
    string, or an array. *)
Inductive AcceptArg : Type :=
| AcceptUndefined
| AcceptString (s : string)
| AcceptArray (l : list string).

(** The array [accepts] iterates over, when its argument is truthy: the empty
    string is falsy, every array is truthy. *)
Definition acceptedFilesArray (acceptedFiles : AcceptArg) : option (list string) :=
  match acceptedFiles with
  | AcceptUndefined => None
  | AcceptString EmptyString => None
  | AcceptString s => Some (JsString.split "," s)
  | AcceptArray l => Some l
  end.

Definition accepts {A : Type} `{FileLike A} (file : A) (acceptedFiles : AcceptArg) : bool :=
  match acceptedFilesArray acceptedFiles with
  | Some acceptedFilesArray =>
      let fileName := orEmpty (get_name file) in
      let mimeType := JsString.toLowerCase (orEmpty (get_type file)) in
      let baseMimeType := JsString.stripSlashTail mimeType in
      existsb
        (fun type =>
           let validType := JsString.toLowerCase (JsString.trim type) in
           if JsString.charAt0Is "." validType then
             JsString.endsWith (JsString.toLowerCase fileName) validType
           else if JsString.endsWith validType "/*" then
             String.eqb baseMimeType (JsString.stripSlashTail validType)
           else String.eqb mimeType validType)
        acceptedFilesArray
  | None => true
  end.

Record FileError : Type := mkFileError {
  code : string;
  message : string
}.

Definition FILE_INVALID_TYPE : string := "file-invalid-type".
Definition FILE_TOO_LARGE : string := "file-too-large".
Definition FILE_TOO_SMALL : string := "file-too-small".
Definition TOO_MANY_FILES : string := "too-many-files".

Definition getInvalidTypeRejectionErr (accept : AcceptArg) : FileError :=
  let messageSuffix :=
    match accept with
    | AcceptUndefined => "undefined"
    | AcceptString s => s
    | AcceptArray [only] => only
    | AcceptArray l => ("one of " ++ JsString.join ", " l)%string
    end in
  {| code := FILE_INVALID_TYPE; message := ("File type must be " ++ messageSuffix)%string |}.

Definition byteOrBytes (n : JsNum) : string :=
  if isOne n then "byte" else "bytes".

Definition getTooLargeRejectionErr (maxSize : JsNum) : FileError :=
  {| code := FILE_TOO_LARGE;
     message :=
       ("File is larger than " ++ numToString maxSize ++ " " ++ byteOrBytes maxSize)%string |}.

Definition getTooSmallRejectionErr (minSize : JsNum) : FileError :=
  {| code := FILE_TOO_SMALL;
     message :=
       ("File is smaller than " ++ numToString minSize ++ " " ++ byteOrBytes minSize)%string |}.

Definition TOO_MANY_FILES_REJECTION : FileError :=
  {| code := TOO_MANY_FILES; message := "Too many files" |}.

Definition MOZ_FILE : string := "application/x-moz-file".

(** [file.type === 'application/x-moz-file'] *)
Definition isMozFile {A : Type} `{FileLike A} (file : A) : bool :=
  match get_type file with
  | Some t => String.eqb t MOZ_FILE
  | None => false
  end.

Definition fileAccepted {A : Type} `{FileLike A} (file : A) (accept : AcceptArg)
  : bool * option FileError :=
  let isAcceptable := isMozFile file || accepts file accept in
  (isAcceptable, if isAcceptable then None else Some (getInvalidTypeRejectionErr accept)).

(** [minSize] and [maxSize] are [None] when undefined or null. *)
Definition fileMatchSize {A : Type} `{FileLike A} (file : A) (minSize maxSize : option JsNum)
  : bool * option FileError :=
  match get_size file with
  | Some size =>
      match minSize, maxSize with
      | Some lo, Some hi =>
          if sizeGt size hi then (false, Some (getTooLargeRejectionErr hi))
          else if sizeLt size lo then (false, Some (getTooSmallRejectionErr lo))
          else (true, None)
      | Some lo, None =>
          if sizeLt size lo then (false, Some (getTooSmallRejectionErr lo))
          else (true, None)
      | None, Some hi =>
          if sizeGt size hi then (false, Some (getTooLargeRejectionErr hi))
          else (true, None)
      | None, None => (true, None)
      end
  | None => (true, None)
  end.

(** What a [validator] returns: [null], one error, or an array of errors. *)
Inductive CustomErrors : Type :=
| NoErrors
| OneError (e : FileError)
| ManyErrors (es : list FileError).

(** Truthiness of the validator's result: only [null] is falsy; an array is
    truthy whatever its length. *)
Definition hasCustomErrors (customErrors : CustomErrors) : bool :=
  match customErrors with
  | NoErrors => false
  | OneError _ => true
  | ManyErrors _ => true
  end.

(** [validator ? validator(file) : null] *)
Definition runValidator {A : Type} (validator : option (A -> CustomErrors)) (file : A)
  : CustomErrors :=
  match validator with
  | Some v => v file
  | None => NoErrors
  end.

(** The cardinality test that [allFilesAccepted] and [setFiles] both make on a
    number of files:
    [(!multiple && n > 1) || (multiple && maxFiles >= 1 && n > maxFiles)]. *)
Definition tooManyFiles (multiple : bool) (maxFiles : Z) (n : nat) : bool :=
  (negb multiple && (1 <? n)%nat)
  || (multiple && (1 <=? maxFiles)%Z && (maxFiles <? Z.of_nat n)%Z).

Definition allFilesAccepted {A : Type} `{FileLike A}
  (files : list A) (accept : AcceptArg) (minSize maxSize : option JsNum)
  (multiple : bool) (maxFiles : Z) (validator : option (A -> CustomErrors)) : bool :=
  if tooManyFiles multiple maxFiles (length files) then false
  else
    forallb
      (fun file =>
         let accepted := fst (fileAccepted file accept) in
         let sizeMatch := fst (fileMatchSize file minSize maxSize) in
         let customErrors := runValidator validator file in
         accepted && sizeMatch && negb (hasCustomErrors customErrors))
      files.

(** ** The [accept] prop *)

(** The [Accept] object, as the entries [Object.entries] lists. *)
Definition Accept : Type := list (string * list string).

(** [/\w+\/[-+.\w]+/.test(v)]: somewhere in [v] a word character, a slash
    and a character of the class. *)
Definition isMimeTailChar (c : ascii) : bool :=
  JsString.isWordChar c || Ascii.eqb c "-" || Ascii.eqb c "+" || Ascii.eqb c ".".

Fixpoint hasMimeShape (v : string) : bool :=
  match v with
  | String a ((String b (String c _)) as rest) =>
      (JsString.isWordChar a && Ascii.eqb b "/" && isMimeTailChar c) || hasMimeShape rest
  | _ => false
  end.

Definition isMIMEType (v : string) : bool :=
  String.eqb v "audio/*" || String.eqb v "video/*" || String.eqb v "image/*"
  || String.eqb v "text/*" || hasMimeShape v.

(** [/^.*\.[\w]+$/.test(v)] *)
Fixpoint isExt (v : string) : bool :=
  match v with
  | EmptyString => false
  | String c rest =>
      (Ascii.eqb c "." && negb (String.eqb rest EmptyString) && JsString.allWordChars rest)
      || (negb (JsString.isLineTerminator c) && isExt rest)
  end.

Definition acceptPropAsAcceptAttr (accept : option Accept) : AcceptArg :=
  match accept with
  | Some entries =>
      AcceptString
        (JsString.join ","
           (filter (fun v => isMIMEType v || isExt v)
              (fold_left (fun a entry => a ++ fst entry :: snd entry) entries [])))
  | None => AcceptUndefined
  end.

(** ** The hook's options, after the defaults are merged in *)
Record Props (A : Type) : Type := mkProps {
  accept : option Accept;
  minSize : option JsNum;
  maxSize : option JsNum;
  multiple : bool;
  maxFiles : Z;
  validator : option (A -> CustomErrors);
  noDragEventsBubbling : bool
}.

Arguments mkProps {A}.
Arguments accept {A}.
Arguments minSize {A}.
Arguments maxSize {A}.
Arguments multiple {A}.
Arguments maxFiles {A}.
Arguments validator {A}.
Arguments noDragEventsBubbling {A}.

Definition defaultProps {A : Type} : Props A := {|
  accept := None;
  minSize := Some (Num 0);
  maxSize := Some Infinity;
  multiple := true;
  maxFiles := 0;
  validator := None;
  noDragEventsBubbling := false
|}.

(** The same options with another validator (or none). *)
Definition withValidator {A : Type} (p : Props A) (v : option (A -> CustomErrors)) : Props A := {|
  accept := accept p;
  minSize := minSize p;
  maxSize := maxSize p;
  multiple := multiple p;
  maxFiles := maxFiles p;
  validator := v;
  noDragEventsBubbling := noDragEventsBubbling p
|}.

(** ** Interaction state and its reducer *)

Record FileRejection (A : Type) : Type := mkFileRejection {
  file : A;
  errors : list FileError
}.

Arguments mkFileRejection {A}.
Arguments file {A}.
Arguments errors {A}.

Record State (A : Type) : Type := mkState {
  isFocused : bool;
  isFileDialogActive : bool;
  isDragActive : bool;
  isDragAccept : bool;
  isDragReject : bool;
  acceptedFiles : list A;
  fileRejections : list (FileRejection A)
}.

Arguments mkState {A}.
Arguments isFocused {A}.
Arguments isFileDialogActive {A}.
Arguments isDragActive {A}.
Arguments isDragAccept {A}.
Arguments isDragReject {A}.
Arguments acceptedFiles {A}.
Arguments fileRejections {A}.

Definition initialState {A : Type} : State A := {|
  isFocused := false;
  isFileDialogActive := false;
  isDragActive := false;
  isDragAccept := false;
  isDragReject := false;
  acceptedFiles := [];
  fileRejections := []
|}.

(** The actions the hook dispatches; [OtherAction] is any other [type], the
    [default] branch of the switch. *)
Inductive Action (A : Type) : Type :=
| focus
| blur
| openDialog
| closeDialog
| setDraggedFiles (isDragActive isDragAccept isDragReject : bool)
| setFilesAction (acceptedFiles : list A) (fileRejections : list (FileRejection A))
| reset
| OtherAction.

Arguments focus {A}.
Arguments blur {A}.
Arguments openDialog {A}.
Arguments closeDialog {A}.
Arguments setDraggedFiles {A}.
Arguments setFilesAction {A}.
Arguments reset {A}.
Arguments OtherAction {A}.

Definition reducer {A : Type} (state : State A) (action : Action A) : State A :=
  match action with
  | focus =>
      {| isFocused := true;
         isFileDialogActive := isFileDialogActive state;
         isDragActive := isDragActive state;
         isDragAccept := isDragAccept state;
         isDragReject := isDragReject state;
         acceptedFiles := acceptedFiles state;
         fileRejections := fileRejections state |}
  | blur =>
      {| isFocused := false;
         isFileDialogActive := isFileDialogActive state;
         isDragActive := isDragActive state;
         isDragAccept := isDragAccept state;
         isDragReject := isDragReject state;
         acceptedFiles := acceptedFiles state;
         fileRejections := fileRejections state |}
  | openDialog =>
      let initial : State A := initialState in
      {| isFocused := isFocused initial;
         isFileDialogActive := true;
         isDragActive := isDragActive initial;
         isDragAccept := isDragAccept initial;
         isDragReject := isDragReject initial;
         acceptedFiles := acceptedFiles initial;
         fileRejections := fileRejections initial |}
  | closeDialog =>
      {| isFocused := isFocused state;
         isFileDialogActive := false;
         isDragActive := isDragActive state;
         isDragAccept := isDragAccept state;
         isDragReject := isDragReject state;
         acceptedFiles := acceptedFiles state;
         fileRejections := fileRejections state |}
  | setDraggedFiles active accept' reject =>
      {| isFocused := isFocused state;
         isFileDialogActive := isFileDialogActive state;
         isDragActive := active;
         isDragAccept := accept';
         isDragReject := reject;
         acceptedFiles := acceptedFiles state;
         fileRejections := fileRejections state |}
  | setFilesAction accepted rejections =>
      {| isFocused := isFocused state;
         isFileDialogActive := isFileDialogActive state;
         isDragActive := isDragActive state;
         isDragAccept := isDragAccept state;
         isDragReject := isDragReject state;
         acceptedFiles := accepted;
         fileRejections := rejections |}
  | reset => initialState
  | OtherAction => state
  end.

(** ** The hook's handlers *)
Section Handlers.

Context {A : Type} `{FileLike A}.
Variable props : Props A.

(** [acceptAttr], the memoised [acceptPropAsAcceptAttr(accept)]. *)
Definition acceptAttr : AcceptArg := acceptPropAsAcceptAttr (accept props).

(** The continuation of [onDragEnterCb] on the extracted [files]: the two flags
    it computes. *)
Definition dragFlags (files : list A) : bool * bool :=
  let fileCount := length files in
  let isDragAccept :=
    (0 <? fileCount)%nat
    && allFilesAccepted files acceptAttr (minSize props) (maxSize props)
         (multiple props) (maxFiles props) (validator props) in
  let isDragReject := (0 <? fileCount)%nat && negb isDragAccept in
  (isDragAccept, isDragReject).

(** [onDragEnterCb] once [getFilesFromEvent] has resolved with [files];
    [stopped] is [isPropagationStopped(event)] at that time.  The
    [onDragEnter] observer is not modelled. *)
Definition onDragEnterCb (stopped : bool) (files : list A) (state : State A) : State A :=
  if stopped && negb (noDragEventsBubbling props) then state
  else
    let '(isDragAccept, isDragReject) := dragFlags files in
    reducer state (setDraggedFiles true isDragAccept isDragReject).

(** [errors.concat(customErrors)] on the array [[acceptError, sizeError]]. *)
Definition concatCustomErrors (errors : list (option FileError)) (customErrors : CustomErrors)
  : list (option FileError) :=
  match customErrors with
  | NoErrors => errors
  | OneError e => errors ++ [Some e]
  | ManyErrors es => errors ++ map Some es
  end.

(** [errors.filter((e) => e)] *)
Fixpoint filterErrors (errors : list (option FileError)) : list FileError :=
  match errors with
  | [] => []
  | Some e :: rest => e :: filterErrors rest
  | None :: rest => filterErrors rest
  end.

(** One round of the [files.forEach] of [setFiles], on the two arrays it
    pushes to. *)
Definition setFilesEach (arrays : list A * list (FileRejection A)) (file : A)
  : list A * list (FileRejection A) :=
  let '(acceptedFiles, fileRejections) := arrays in
  let '(accepted, acceptError) := fileAccepted file acceptAttr in
  let '(sizeMatch, sizeError) := fileMatchSize file (minSize props) (maxSize props) in
  let customErrors := runValidator (validator props) file in
  if accepted && sizeMatch && negb (hasCustomErrors customErrors) then
    (acceptedFiles ++ [file], fileRejections)
  else
    let errors := [acceptError; sizeError] in
    let errors :=
      if hasCustomErrors customErrors then concatCustomErrors errors customErrors
      else errors in
    (acceptedFiles, fileRejections ++ [{| file := file; errors := filterErrors errors |}]).

(** [setFiles]: the [acceptedFiles] and [fileRejections] it dispatches and hands
    to the observers. *)
Definition setFiles (files : list A) : list A * list (FileRejection A) :=
  let '(acceptedFiles, fileRejections) := fold_left setFilesEach files ([], []) in
  if tooManyFiles (multiple props) (maxFiles props) (length acceptedFiles) then
    ([],
     fold_left
       (fun rejections file =>
          rejections ++ [{| file := file; errors := [TOO_MANY_FILES_REJECTION] |}])
       acceptedFiles fileRejections)
  else (acceptedFiles, fileRejections).

(** The state after [setFiles] has dispatched. *)
Definition setFilesState (files : list A) (state : State A) : State A :=
  let '(acceptedFiles, fileRejections) := setFiles files in
  reducer state (setFilesAction acceptedFiles fileRejections).

(** [onDropCb]: the reset is dispatched at once; the files arrive later, when
    [getFilesFromEvent] resolves ([None]: the event carries no files, or the
    promise was rejected), and are processed unless propagation was stopped. *)
Definition onDropCb (stopped : bool) (files : option (list A)) (state : State A) : State A :=
  let state := reducer state reset in
  match files with
  | Some files =>
      if stopped && negb (noDragEventsBubbling props) then state
      else setFilesState files state
  | None => state
  end.

End Handlers.

(** ** Event-to-file extraction *)

Definition COMMON_MIME_TYPES : list (string * string) := [
  ("aac", "audio/aac");
  ("abw", "application/x-abiword");
  ("arc", "application/x-freearc");
  ("avif", "image/avif");
  ("avi", "video/x-msvideo");
  ("azw", "application/vnd.amazon.ebook");
  ("bin", "application/octet-stream");
  ("bmp", "image/bmp");
  ("bz", "application/x-bzip");
  ("bz2", "application/x-bzip2");
  ("cda", "application/x-cdf");
  ("csh", "application/x-csh");
  ("css", "text/css");
  ("csv", "text/csv");
  ("doc", "application/msword");
  ("docx", "application/vnd.openxmlformats-officedocument.wordprocessingml.document");
  ("eot", "application/vnd.ms-fontobject");
  ("epub", "application/epub+zip");
  ("gz", "application/gzip");
  ("gif", "image/gif");
  ("heic", "image/heic");
  ("heif", "image/heif");
  ("htm", "text/html");
  ("html", "text/html");
  ("ico", "image/vnd.microsoft.icon");
  ("ics", "text/calendar");
  ("jar", "application/java-archive");
  ("jpeg", "image/jpeg");
  ("jpg", "image/jpeg");
  ("js", "text/javascript");
  ("json", "application/json");
  ("jsonld", "application/ld+json");
  ("mid", "audio/midi");
  ("midi", "audio/midi");
  ("mjs", "text/javascript");
  ("mp3", "audio/mpeg");
  ("mp4", "video/mp4");
  ("mpeg", "video/mpeg");
  ("mpkg", "application/vnd.apple.installer+xml");
  ("odp", "application/vnd.oasis.opendocument.presentation");
  ("ods", "application/vnd.oasis.opendocument.spreadsheet");
  ("odt", "application/vnd.oasis.opendocument.text");
  ("oga", "audio/ogg");
  ("ogv", "video/ogg");
  ("ogx", "application/ogg");
  ("opus", "audio/opus");
  ("otf", "font/otf");
  ("png", "image/png");
  ("pdf", "application/pdf");
  ("php", "application/x-httpd-php");
  ("ppt", "application/vnd.ms-powerpoint");
  ("pptx", "application/vnd.openxmlformats-officedocument.presentationml.presentation");
  ("rar", "application/vnd.rar");
  ("rtf", "application/rtf");
  ("sh", "application/x-sh");
  ("svg", "image/svg+xml");
  ("swf", "application/x-shockwave-flash");
  ("tar", "application/x-tar");
  ("tif", "image/tiff");
  ("tiff", "image/tiff");
  ("ts", "video/mp2t");
  ("ttf", "font/ttf");
  ("txt", "text/plain");
  ("vsd", "application/vnd.visio");
  ("wav", "audio/wav");
  ("weba", "audio/webm");
  ("webm", "video/webm");
  ("webp", "image/webp");
  ("woff", "font/woff");
  ("woff2", "font/woff2");
  ("xhtml", "application/xhtml+xml");
  ("xls", "application/vnd.ms-excel");
  ("xlsx", "application/vnd.openxmlformats-officedocument.spreadsheetml.sheet");
  ("xml", "application/xml");
  ("xul", "application/vnd.mozilla.xul+xml");
  ("zip", "application/zip");
  ("7z", "application/x-7z-compressed");
  ("mkv", "video/x-matroska");
  ("mov", "video/quicktime");
  ("msg", "application/vnd.ms-outlook")
].

(** [COMMON_MIME_TYPES.get(ext)]; the keys of the table are distinct. *)
Fixpoint mapGet (table : list (string * string)) (key : string) : option string :=
  match table with
  | [] => None
  | (k, v) :: rest => if String.eqb k key then Some v else mapGet rest key
  end.

Definition withMimeType (file : File) : File :=
  let name := file_name file in
  let hasExtension := negb (String.eqb name EmptyString) && JsString.hasDot name in
  if hasExtension && String.eqb (file_type file) EmptyString then
    let ext := JsString.toLowerCase (JsString.lastPiece (JsString.split "." name)) in
    match mapGet COMMON_MIME_TYPES ext with
    | Some type =>
        if String.eqb type EmptyString then file
        else
          {| file_name := file_name file;
             file_type := type;
             file_size := file_size file;
             file_path := file_path file;
             file_webkitRelativePath := file_webkitRelativePath file |}
    | None => file
    end
  else file.

(** [toFileWithPath(file, path)]; [path] is [None] when the argument is not a
    string.  A file that already has a [path] (on electron) keeps it. *)
Definition toFileWithPath (file : File) (path : option string) : File :=
  let f := withMimeType file in
  match file_path f with
  | Some _ => f
  | None =>
      let value :=
        match path with
        | Some p => p
        | None =>
            match file_webkitRelativePath file with
            | Some rel => if (0 <? String.length rel)%nat then rel else file_name file
            | None => file_name file
            end
        end in
      {| file_name := file_name f;
         file_type := file_type f;
         file_size := file_size f;
         file_path := Some value;
         file_webkitRelativePath := file_webkitRelativePath f |}
  end.

Definition FILES_TO_IGNORE : list string := [".DS_Store"; "Thumbs.db"].

(** [FILES_TO_IGNORE.indexOf(name) === -1] *)
Definition notIgnored (name : string) : bool :=
  negb (existsb (String.eqb name) FILES_TO_IGNORE).

Definition noIgnoredFiles (files : list File) : list File :=
  filter (fun file => notIgnored (file_name file)) files.

(** *** Promises

    A promise is modelled by the way it settles: [Some v] when it is fulfilled
    with [v], [None] when it is rejected (the reason is not kept: which of
    several rejections wins a [Promise.all] depends on timing). *)
Definition Promise (T : Type) : Type := option T.

Definition resolve {T : Type} (v : T) : Promise T := Some v.
Definition reject {T : Type} : Promise T := None.

Definition andThen {T U : Type} (p : Promise T) (k : T -> Promise U) : Promise U :=
  match p with
  | Some v => k v
  | None => None
  end.

Notation "x <- p ;; k" := (andThen p (fun x => k))
  (at level 61, p at next level, right associativity).

(** [Promise.all]: the values in the order of the promises, or a rejection. *)
Fixpoint all {T : Type} (promises : list (Promise T)) : Promise (list T) :=
  match promises with
  | [] => resolve []
  | p :: rest => v <- p ;; vs <- all rest ;; resolve (v :: vs)
  end.

(** *** File system entries *)

(** A [FileSystemEntry].  A file entry has its [fullPath] and what
    [entry.file(...)] calls back with ([None]: the error callback).  A
    directory entry has the answers of its reader's [readEntries], in order
    ([None]: the error callback); once they are used up the reader answers
    with the empty batch. *)
Inductive Entry : Type :=
| FileEntry (fullPath : string) (file : option File)
| DirectoryEntry (reads : list (option (list Entry))).

(** [FileValue = FileWithPath | FileArray[]]: what [fromEntry] resolves
    with, a file or nested arrays of files. *)
Inductive FileValue : Type :=
| FileItem (f : File)
| FileArray (items : list FileValue).

Definition fromFileEntry (fullPath : string) (file : option File) : Promise File :=
  match file with
  | Some f => resolve (toFileWithPath f (Some fullPath))
  | None => reject
  end.

(** The array of arrays [fromDirEntry] resolves with, as a [FileValue]. *)
Definition dirValue (files : list (list FileValue)) : FileValue :=
  FileArray (map FileArray files).

(** [fromEntry]; for a directory the local fixpoint is [readEntries] of
    [fromDirEntry], with the array [entries] it pushes each batch's
    [Promise.all] to. *)
Fixpoint fromEntry (entry : Entry) : Promise FileValue :=
  match entry with
  | FileEntry fullPath file => f <- fromFileEntry fullPath file ;; resolve (FileItem f)
  | DirectoryEntry reads =>
      files <-
        (fix readEntries (reads : list (option (list Entry)))
             (entries : list (Promise (list FileValue))) : Promise (list (list FileValue)) :=
           match reads with
           | [] => all entries
           | None :: _ => reject
           | Some batch :: rest =>
               match batch with
               | [] => all entries
               | _ :: _ => readEntries rest (entries ++ [all (map fromEntry batch)])
               end
           end) reads [] ;;
      resolve (dirValue files)
  end.

(** [readEntries] inside [fromDirEntry], on the answers the reader still has
    to give. *)
Fixpoint readEntries (reads : list (option (list Entry)))
  (entries : list (Promise (list FileValue))) : Promise (list (list FileValue)) :=
  match reads with
  | [] => all entries
  | None :: _ => reject
  | Some batch :: rest =>
      match batch with
      | [] => all entries
      | _ :: _ => readEntries rest (entries ++ [all (map fromEntry batch)])
      end
  end.

Definition fromDirEntry (reads : list (option (list Entry))) : Promise (list (list FileValue)) :=
  readEntries reads [].

(** [Array.isArray(files) ? flatten(files) : [files]], the summand of the
    reduce in [flatten]. *)
Fixpoint flattenValue (files : FileValue) : list File :=
  match files with
  | FileItem f => [f]
  | FileArray items => fold_left (fun acc files => acc ++ flattenValue files) items []
  end.

Definition flatten (items : list FileValue) : list File :=
  fold_left (fun acc files => acc ++ flattenValue files) items [].

(** *** Data transfer *)

(** A [DataTransferItem]: [getAsFile()] may return [null];
    [webkitGetAsEntry] is [None] where it is not a function, and may return
    [null]. *)
Record DataTransferItem : Type := mkItem {
  kind : string;
  item_type : string;
  getAsFile : option File;
  webkitGetAsEntry : option (option Entry)
}.

#[export] Instance DataTransferItem_FileLike : FileLike DataTransferItem := {|
  get_name _ := None;
  get_type item := Some (item_type item);
  get_size _ := None
|}.

(** A [FileList] or [DataTransferItemList] property, which may be [null] or
    missing. *)
Inductive JsList (T : Type) : Type :=
| ListUndefined
| ListNull
| ListOf (items : list T).

Arguments ListUndefined {T}.
Arguments ListNull {T}.
Arguments ListOf {T}.

(** [fromList]: [null] is the empty array; reading [length] of [undefined]
    throws, which rejects the promise of the async caller. *)
Definition fromList {T : Type} (items : JsList T) : Promise (list T) :=
  match items with
  | ListNull => resolve []
  | ListOf l => resolve l
  | ListUndefined => reject
  end.

Record DataTransfer : Type := mkDataTransfer {
  items : JsList DataTransferItem;
  files : JsList File
}.

Definition fromDataTransferItem (item : DataTransferItem) : Promise File :=
  match getAsFile item with
  | Some file => resolve (toFileWithPath file None)
  | None => reject
  end.

Definition toFilePromises (item : DataTransferItem) : Promise FileValue :=
  match webkitGetAsEntry item with
  | None => f <- fromDataTransferItem item ;; resolve (FileItem f)
  | Some (Some (DirectoryEntry reads)) => files <- fromDirEntry reads ;; resolve (dirValue files)
  | Some _ => f <- fromDataTransferItem item ;; resolve (FileItem f)
  end.

(** What [fromEvent] resolves with: files, or on [dragenter] and [dragover]
    the items themselves. *)
Inductive Extracted : Type :=
| ExtractedFile (f : File)
| ExtractedItem (item : DataTransferItem).

#[export] Instance Extracted_FileLike : FileLike Extracted := {|
  get_name x := match x with ExtractedFile f => get_name f | ExtractedItem i => get_name i end;
  get_type x := match x with ExtractedFile f => get_type f | ExtractedItem i => get_type i end;
  get_size x := match x with ExtractedFile f => get_size f | ExtractedItem i => get_size i end
|}.

Definition getDataTransferFiles (dt : DataTransfer) (type : string) : Promise (list Extracted) :=
  match items dt with
  | ListOf l =>
      let items := filter (fun item => String.eqb (kind item) "file") l in
      if negb (String.eqb type "drop") then resolve (map ExtractedItem items)
      else
        files <- all (map toFilePromises items) ;;
        resolve (map ExtractedFile (noIgnoredFiles (flatten files)))
  | _ =>
      l <- fromList (files dt) ;;
      resolve (map ExtractedFile (noIgnoredFiles (map (fun file => toFileWithPath file None) l)))
  end.

Definition getInputFiles (targetFiles : JsList File) : Promise (list Extracted) :=
  l <- fromList targetFiles ;;
  resolve (map (fun file => ExtractedFile (toFileWithPath file None)) l).

(** An element of the array given to [fromEvent]: an object with a [getFile]
    function, whose promise settles as given; another object; or a value that
    is no object ([null], [undefined] or a primitive). *)
Inductive Handle : Type :=
| FsHandle (getFile : Promise File)
| NotAHandle
| NotAnObject.

(** [evt.every((item) => 'getFile' in item && typeof item.getFile === 'function')]:
    the elements are tested in order up to the first that fails the test, and
    the [in] test throws on a value that is no object, which rejects the
    promise of [fromEvent]. *)
Fixpoint everyHasGetFile (handles : list Handle) : Promise bool :=
  match handles with
  | [] => resolve true
  | FsHandle _ :: rest => everyHasGetFile rest
  | NotAHandle :: _ => resolve false
  | NotAnObject :: _ => reject
  end.

Definition getFsHandleFiles (handles : list Handle) : Promise (list Extracted) :=
  files <- all (map (fun h => match h with FsHandle r => r | _ => reject end) handles) ;;
  resolve (map (fun file => ExtractedFile (toFileWithPath file None)) files).

(** The argument of [fromEvent], by the shape the function tells apart: an
    object with a [dataTransfer] object, an object with a [target] object (and
    no [dataTransfer]), an array, anything else. *)
Inductive Evt : Type :=
| DragEvt (type : string) (dataTransfer : DataTransfer)
| ChangeEvt (targetFiles : JsList File)
| HandlesEvt (handles : list Handle)
| OtherEvt.

Definition fromEvent (evt : Evt) : Promise (list Extracted) :=
  match evt with
  | DragEvt type dt => getDataTransferFiles dt type
  | ChangeEvt targetFiles => getInputFiles targetFiles
  | HandlesEvt handles =>
      every <- everyHasGetFile handles ;;
      if every then getFsHandleFiles handles else resolve []
  | OtherEvt => resolve []
  end.

(** ** Reference definitions for the statements below *)

(** The per-file test of [setFiles] and [allFilesAccepted]:
    [accepted && sizeMatch && !customErrors]. *)
Definition passesChecks {A : Type} `{FileLike A} (props : Props A) (file : A) : bool :=
  fst (fileAccepted file (acceptAttr props))
  && fst (fileMatchSize file (minSize props) (maxSize props))
  && negb (hasCustomErrors (runValidator (validator props) file)).

(** The rejection [setFiles] records for a file that fails the per-file test:
    the type error, the size error and the validator's errors, in that
    order. *)
Definition checkRejection {A : Type} `{FileLike A} (props : Props A) (file : A)
  : FileRejection A :=
  {| file := file;
     errors :=
       filterErrors
         (concatCustomErrors
            [snd (fileAccepted file (acceptAttr props));
             snd (fileMatchSize file (minSize props) (maxSize props))]
            (runValidator (validator props) file)) |}.

(** The rejection of a file for the cardinality of the batch alone. *)
Definition tooManyRejection {A : Type} (file : A) : FileRejection A :=
  {| file := file; errors := [TOO_MANY_FILES_REJECTION] |}.

(** The validator's share of the per-file test: [!customErrors]. *)
Definition validatorPasses {A : Type} (props : Props A) (file : A) : bool :=
  negb (hasCustomErrors (runValidator (validator props) file)).

(** The drag decision as the specification words it: at least one file, and
    the type, size and cardinality checks only. *)
Definition typeSizeCardinalityOk {A : Type} `{FileLike A} (props : Props A) (files : list A)
  : bool :=
  (0 <? length files)%nat
  && negb (tooManyFiles (multiple props) (maxFiles props) (length files))
  && forallb
       (fun file =>
          fst (fileAccepted file (acceptAttr props))
          && fst (fileMatchSize file (minSize props) (maxSize props)))
       files.

(** The file entries below an entry with their full paths, in the order of
    enumeration: the batches of a directory one after the other, up to its
    first empty batch, each entry of a batch expanded in place. *)
Fixpoint entryFiles (entry : Entry) : list (string * File) :=
  match entry with
  | FileEntry fullPath (Some f) => [(fullPath, f)]
  | FileEntry _ None => []
  | DirectoryEntry reads =>
      (fix batches (reads : list (option (list Entry))) : list (string * File) :=
         match reads with
         | Some batch :: rest =>
             match batch with
             | [] => []
             | _ :: _ => flat_map entryFiles batch ++ batches rest
             end
         | _ => []
         end) reads
  end.

Fixpoint readsFiles (reads : list (option (list Entry))) : list (string * File) :=
  match reads with
  | Some batch :: rest =>
      match batch with
      | [] => []
      | _ :: _ => flat_map entryFiles batch ++ readsFiles rest
      end
  | _ => []
  end.

(** No read fails below the entry: every file entry yields its file, and no
    reader calls its error callback before its first empty batch. *)
Fixpoint readable (entry : Entry) : bool :=
  match entry with
  | FileEntry _ (Some _) => true
  | FileEntry _ None => false
  | DirectoryEntry reads =>
      (fix ok (reads : list (option (list Entry))) : bool :=
         match reads with
         | [] => true
         | None :: _ => false
         | Some batch :: rest =>
             match batch with
             | [] => true
             | _ :: _ => forallb readable batch && ok rest
             end
         end) reads
  end.

Fixpoint readableReads (reads : list (option (list Entry))) : bool :=
  match reads with
  | [] => true
  | None :: _ => false
  | Some batch :: rest =>
      match batch with
      | [] => true
      | _ :: _ => forallb readable batch && readableReads rest
      end
  end.

(** The descriptor of a file entry: [toFileWithPath(file, entry.fullPath)]. *)
Definition fileAt (located : string * File) : File :=
  toFileWithPath (snd located) (Some (fst located)).

(** The item of a dropped directory. *)
Definition directoryItem (type : string) (asFile : option File)
  (reads : list (option (list Entry))) : DataTransferItem :=
  {| kind := "file";
     item_type := type;
     getAsFile := asFile;
     webkitGetAsEntry := Some (Some (DirectoryEntry reads)) |}.

(** A directory with one file directly inside it and one file two directories
    further down. *)
Definition twoLevelReads (pathA pathB : string) (a b : File) : list (option (list Entry)) :=
  [Some [FileEntry pathA (Some a);
         DirectoryEntry [Some [DirectoryEntry [Some [FileEntry pathB (Some b)]]]]]].

(** Induction on entries, with the property available for every entry of
    every batch of a directory. *)
Section EntryInduction.

Variable P : Entry -> Prop.

Definition batchesSatisfy (reads : list (option (list Entry))) : Prop :=
  Forall
    (fun read =>
       match read with
       | Some batch => Forall P batch
       | None => True
       end)
    reads.

Hypothesis file_case : forall fullPath file, P (FileEntry fullPath file).
Hypothesis directory_case : forall reads, batchesSatisfy reads -> P (DirectoryEntry reads).

Fixpoint Entry_nested_ind (entry : Entry) : P entry :=
  match entry with
  | FileEntry fullPath file => file_case fullPath file
  | DirectoryEntry reads =>
      directory_case reads
        ((fix on_reads (reads : list (option (list Entry))) : batchesSatisfy reads :=
            match reads with
            | [] => Forall_nil _
            | read :: rest =>
                Forall_cons read
                  (match read as r
                         return match r with
                                | Some batch => Forall P batch
                                | None => True
                                end
                   with
                   | Some batch =>
                       (fix on_batch (batch : list Entry) : Forall P batch :=
                          match batch with
                          | [] => Forall_nil _
                          | e :: es => Forall_cons e (Entry_nested_ind e) (on_batch es)
                          end) batch
                   | None => I
                   end)
                  (on_reads rest)
            end) reads)
  end.

End EntryInduction.

(** Extraction from an entry settles as the entry describes: a rejection when
    a read below it fails, otherwise values that flatten to the descriptors
    of its file entries, in order. *)
Definition entrySettles (entry : Entry) : Prop :=
  option_map flattenValue (fromEntry entry) =
  if readable entry then Some (map fileAt (entryFiles entry)) else None.

(** ** Sample values *)
Module Sample.

Definition png : File :=
  {| file_name := "cat.png"; file_type := "image/png"; file_size := 100;
     file_path := None; file_webkitRelativePath := None |}.

Definition txt : File :=
  {| file_name := "notes.txt"; file_type := "text/plain"; file_size := 7;
     file_path := None; file_webkitRelativePath := None |}.

Definition pdf : File :=
  {| file_name := "paper.pdf"; file_type := "application/pdf"; file_size := 2048;
     file_path := None; file_webkitRelativePath := None |}.

Definition dsStore : File :=
  {| file_name := ".DS_Store"; file_type := ""; file_size := 6148;
     file_path := None; file_webkitRelativePath := None |}.

(** A file as electron hands it over, with its absolute path. *)
Definition electronFile : File :=
  {| file_name := "raw.png"; file_type := "image/png"; file_size := 9;
     file_path := Some "/home/u/photos/2024/raw/raw.png"; file_webkitRelativePath := None |}.

Definition mozFile : File :=
  {| file_name := "x.bin"; file_type := "application/x-moz-file"; file_size := 1;
     file_path := None; file_webkitRelativePath := None |}.

(** The item of a dragged file while the drag is in progress. *)
Definition pngItem : DataTransferItem :=
  {| kind := "file"; item_type := "image/png"; getAsFile := None;
     webkitGetAsEntry := None |}.

Definition customError : FileError :=
  {| code := "name-too-long"; message := "Name is too long" |}.

(** Options with a validator that rejects every file. *)
Definition strictProps {A : Type} : Props A :=
  withValidator defaultProps (Some (fun _ => OneError customError)).

(** [multiple: true, maxFiles: 2]. *)
Definition atMostTwo : Props File := {|
  accept := None;
  minSize := Some (Num 0);
  maxSize := Some Infinity;
  multiple := true;
  maxFiles := 2;
  validator := None;
  noDragEventsBubbling := false
|}.

(** [accept: {'image/*': []}] with the other defaults. *)
Definition imagesOnly : Props File := {|
  accept := Some [("image/*", [])];
  minSize := Some (Num 0);
  maxSize := Some Infinity;
  multiple := true;
  maxFiles := 0;
  validator := None;
  noDragEventsBubbling := false
|}.

Definition someState : State File := {|
  isFocused := true;
  isFileDialogActive := true;
  isDragActive := true;
  isDragAccept := false;
  isDragReject := true;
  acceptedFiles := [png];
  fileRejections := [tooManyRejection txt]
|}.

(** A dropped directory with [.DS_Store] directly inside it and an electron
    file two directories further down. *)
Definition junkTransfer : DataTransfer := {|
  items :=
    ListOf [directoryItem "" None
              (twoLevelReads "/photos/.DS_Store" "/photos/2024/raw/raw.png"
                 dsStore electronFile)];
  files := ListOf []
|}.

Definition photosTransfer : DataTransfer := {|
  items :=
    ListOf [directoryItem "" None
              (twoLevelReads "/photos/cat.png" "/photos/2024/notes/notes.txt" png txt)];
  files := ListOf []
|}.

(** The same shape of directory, where reading the deeper file fails. *)
Definition unreadableTransfer : DataTransfer := {|
  items :=
    ListOf [directoryItem "" None
              [Some [FileEntry "/photos/cat.png" (Some png);
                     DirectoryEntry
                       [Some [DirectoryEntry
                                [Some [FileEntry "/photos/2024/notes/notes.txt" None]]]]]]];
  files := ListOf []
|}.

End Sample.

(** ** Further definitions: options, drops of several items, event handlers,
    the file dialog *)

(** The same options with other size bounds. *)
Definition withSizeBounds {A : Type} (p : Props A) (lo hi : option JsNum) : Props A := {|
  accept := accept p;
  minSize := lo;
  maxSize := hi;
  multiple := multiple p;
  maxFiles := maxFiles p;
  validator := validator p;
  noDragEventsBubbling := noDragEventsBubbling p
|}.

(** A file with its name and type in lower case. *)
Definition lowerCased (f : File) : File := {|
  file_name := JsString.toLowerCase (file_name f);
  file_type := JsString.toLowerCase (file_type f);
  file_size := file_size f;
  file_path := file_path f;
  file_webkitRelativePath := file_webkitRelativePath f
|}.

(** No comma in the string. *)
Fixpoint noComma (s : string) : bool :=
  match s with
  | EmptyString => true
  | String c rest => negb (Ascii.eqb c ",") && noComma rest
  end.

(** The entries [acceptPropAsAcceptAttr] joins: every key followed by its
    extensions, without the entries that are neither a MIME type nor an
    extension. *)
Definition acceptAttrEntries (entries : Accept) : list string :=
  filter (fun v => isMIMEType v || isExt v)
    (fold_left (fun a entry => a ++ fst entry :: snd entry) entries []).

(** [{...agg, [mimeType]: ext}]: the value of an existing key is replaced in
    place, a new key is added at the end. *)
Fixpoint objectSet (agg : Accept) (mimeType : string) (ext : list string) : Accept :=
  match agg with
  | [] => [(mimeType, ext)]
  | (k, v) :: rest =>
      if String.eqb k mimeType then (k, ext) :: rest
      else (k, v) :: objectSet rest mimeType ext
  end.

Record PickerType : Type := mkPickerType {
  description : string;
  pickerAccept : Accept
}.

(** [pickerOptionsFromAccept]; the warnings it logs are not modelled. *)
Definition pickerOptionsFromAccept (accept : option Accept) : option (list PickerType) :=
  match accept with
  | Some entries =>
      let acceptForPicker :=
        fold_left (fun agg entry => objectSet agg (fst entry) (snd entry))
          (filter (fun entry => isMIMEType (fst entry) && forallb isExt (snd entry)) entries)
          [] in
      Some [{| description := "Files"; pickerAccept := acceptForPicker |}]
  | None => None
  end.

(** [item.kind === 'file'], the filter of [getDataTransferFiles]. *)
Definition isFileKind (item : DataTransferItem) : bool := String.eqb (kind item) "file".

(** The descriptors a dropped item stands for: those of the file entries
    below it when it is a directory, otherwise the one of [getAsFile()]. *)
Definition itemFiles (item : DataTransferItem) : list File :=
  match webkitGetAsEntry item with
  | Some (Some (DirectoryEntry reads)) => map fileAt (readsFiles reads)
  | _ =>
      match getAsFile item with
      | Some f => [toFileWithPath f None]
      | None => []
      end
  end.

(** Nothing fails when the item is read on drop. *)
Definition itemReadable (item : DataTransferItem) : bool :=
  match webkitGetAsEntry item with
  | Some (Some (DirectoryEntry reads)) => readableReads reads
  | _ =>
      match getAsFile item with
      | Some _ => true
      | None => false
      end
  end.

(** *** Propagation *)

(** What [isPropagationStopped] reads of an event: the result of its
    [isPropagationStopped] method ([None] when it has none) and its
    [cancelBubble] ([None] when undefined). *)
Record EventFlags : Type := mkEventFlags {
  isPropagationStoppedMethod : option bool;
  cancelBubble : option bool
}.

Definition isPropagationStopped (event : EventFlags) : bool :=
  match isPropagationStoppedMethod event with
  | Some stopped => stopped
  | None =>
      match cancelBubble event with
      | Some bubble => bubble
      | None => false
      end
  end.

(** [composeEventHandlers(...fns)] applied to an event.  [W] is everything a
    handler may change, the event included; a handler that is [null] or
    undefined is [None].  The result is the final [W] and what [some]
    returns. *)
Section ComposeEventHandlers.

Variable W : Type.
Variable eventOf : W -> EventFlags.

Fixpoint composeEventHandlers (fns : list (option (W -> W))) (w : W) : W * bool :=
  match fns with
  | [] => (w, false)
  | fn :: rest =>
      let w' :=
        match fn with
        | Some f => if negb (isPropagationStopped (eventOf w)) then f w else w
        | None => w
        end in
      if isPropagationStopped (eventOf w') then (w', true)
      else composeEventHandlers rest w'
  end.

(** Every handler of the list, one after the other. *)
Definition runAll (fns : list (option (W -> W))) (w : W) : W :=
  fold_left (fun w fn => match fn with Some f => f w | None => w end) fns w.

End ComposeEventHandlers.

Arguments composeEventHandlers {W}.
Arguments runAll {W}.

(** *** The targets under the pointer *)

(** A DOM node, by its identity. *)
Definition Node : Type := nat.

(** [idx = targets.indexOf(target); if (idx !== -1) targets.splice(idx, 1)] *)
Fixpoint spliceFirst (target : Node) (targets : list Node) : list Node :=
  match targets with
  | [] => []
  | t :: rest => if Nat.eqb t target then rest else t :: spliceFirst target rest
  end.

(** [dragTargetsRef.current] after [onDragEnterCb]. *)
Definition dragEnterTargets (dragTargets : list Node) (target : Node) : list Node :=
  dragTargets ++ [target].

(** [dragTargetsRef.current] after [onDragLeaveCb]; [contains] is
    [rootRef.current && rootRef.current.contains(target)]. *)
Definition dragLeaveTargets (contains : Node -> bool) (dragTargets : list Node)
  (target : Node) : list Node :=
  spliceFirst target (filter contains dragTargets).

(** [onDragLeaveCb] on the targets and the state; the [onDragLeave] observer
    is not modelled. *)
Definition onDragLeaveCb {A : Type} (contains : Node -> bool) (target : Node)
  (dragTargets : list Node) (state : State A) : list Node * State A :=
  let targets := dragLeaveTargets contains dragTargets target in
  if (0 <? length targets)%nat then (targets, state)
  else (targets, reducer state (setDraggedFiles false false false)).

(** *** Observers and the file dialog *)

(** An error value, as [isAbort] and [isSecurityError] read it. *)
Record JsError : Type := mkJsError {
  isDOMException : bool;
  errorName : string;
  errorCode : nat
}.

Definition ABORT_ERR : nat := 20.
Definition SECURITY_ERR : nat := 18.

Definition isAbort (v : JsError) : bool :=
  isDOMException v
  && (String.eqb (errorName v) "AbortError" || Nat.eqb (errorCode v) ABORT_ERR).

Definition isSecurityError (v : JsError) : bool :=
  isDOMException v
  && (String.eqb (errorName v) "SecurityError" || Nat.eqb (errorCode v) SECURITY_ERR).

(** What [onErrCb] is given: an error that was caught, or the error the hook
    makes when there is no input element to fall back on. *)
Inductive Reported : Type :=
| Caught (e : JsError)
| NoInputProvided.

(** The calls the hook makes, in order: to the observers ([onDrop],
    [onDropRejected], [onDropAccepted], [onFileDialogOpen],
    [onFileDialogCancel], [onError] or [console.error]; a call to an observer
    that is not configured does nothing) and to the input element (its value
    is cleared and it is clicked). *)
Inductive Call (A : Type) : Type :=
| CallOnDrop (acceptedFiles : list A) (fileRejections : list (FileRejection A))
| CallOnDropRejected (fileRejections : list (FileRejection A))
| CallOnDropAccepted (acceptedFiles : list A)
| CallFileDialogOpen
| CallFileDialogCancel
| CallOnError (e : Reported)
| CallInputClick.

Arguments CallOnDrop {A}.
Arguments CallOnDropRejected {A}.
Arguments CallOnDropAccepted {A}.
Arguments CallFileDialogOpen {A}.
Arguments CallFileDialogCancel {A}.
Arguments CallOnError {A}.
Arguments CallInputClick {A}.

(** The observer calls of [setFiles], after its dispatch. *)
Definition setFilesCalls {A : Type} `{FileLike A} (props : Props A) (files : list A)
  : list (Call A) :=
  let '(acceptedFiles, fileRejections) := setFiles props files in
  [CallOnDrop acceptedFiles fileRejections]
    ++ (if (0 <? length fileRejections)%nat then [CallOnDropRejected fileRejections] else [])
    ++ (if (0 <? length acceptedFiles)%nat then [CallOnDropAccepted acceptedFiles] else []).

(** The state of the hook around the dialog: the reducer's state,
    [fsAccessApiWorksRef.current], and the calls made so far. *)
Record Dialog (A : Type) : Type := mkDialog {
  dialogState : State A;
  fsAccessApiWorks : bool;
  calls : list (Call A)
}.

Arguments mkDialog {A}.
Arguments dialogState {A}.
Arguments fsAccessApiWorks {A}.
Arguments calls {A}.

(** How [showOpenFilePicker(opts).then(getFilesFromEvent)] settles: with the
    files, or with an error for the [catch]. *)
Inductive PickerOutcome (A : Type) : Type :=
| PickerFiles (files : list A)
| PickerFailed (e : JsError).

Arguments PickerFiles {A}.
Arguments PickerFailed {A}.

(** [openFileDialog], once the picker's promise (if the picker is used) has
    settled as [outcome]; [hasInput] is [inputRef.current] being set. *)
Definition openFileDialog {A : Type} `{FileLike A} (props : Props A) (hasInput : bool)
  (outcome : PickerOutcome A) (d : Dialog A) : Dialog A :=
  if fsAccessApiWorks d then
    let opened := reducer (dialogState d) openDialog in
    let called := calls d ++ [CallFileDialogOpen] in
    match outcome with
    | PickerFiles files =>
        {| dialogState := reducer (setFilesState props files opened) closeDialog;
           fsAccessApiWorks := true;
           calls := called ++ setFilesCalls props files |}
    | PickerFailed e =>
        if isAbort e then
          {| dialogState := reducer opened closeDialog;
             fsAccessApiWorks := true;
             calls := called ++ [CallFileDialogCancel] |}
        else if isSecurityError e then
          {| dialogState := opened;
             fsAccessApiWorks := false;
             calls :=
               called ++ [if hasInput then CallInputClick else CallOnError NoInputProvided] |}
        else
          {| dialogState := opened;
             fsAccessApiWorks := true;
             calls := called ++ [CallOnError (Caught e)] |}
    end
  else if hasInput then
    {| dialogState := reducer (dialogState d) openDialog;
       fsAccessApiWorks := false;
       calls := calls d ++ [CallFileDialogOpen; CallInputClick] |}
  else d.

(** [onWindowFocus], once its timeout has run; [inputFiles] is the length of
    [inputRef.current.files] then, [None] when there is no input element. *)
Definition onWindowFocus {A : Type} (inputFiles : option nat) (d : Dialog A) : Dialog A :=
  if negb (fsAccessApiWorks d) && isFileDialogActive (dialogState d) then
    match inputFiles with
    | Some n =>
        if Nat.eqb n 0 then
          {| dialogState := reducer (dialogState d) closeDialog;
             fsAccessApiWorks := fsAccessApiWorks d;
             calls := calls d ++ [CallFileDialogCancel] |}
        else d
    | None => d
    end
  else d.

(** *** A validator with a state of its own

    [validator] is a callback of the user: [setFiles] calls it once for each
    element of the batch, in order, and nothing keeps it from answering
    differently from one call to the next.  Here the callback has a state
    [St] that each call reads and may change; [props] gives the other options
    (its own [validator] is not used). *)
Section CallingValidator.

Context {A : Type} `{FileLike A} {St : Type}.
Variable props : Props A.
Variable callback : option (St -> A -> CustomErrors * St).

(** [validator ? validator(file) : null] *)
Definition callValidator (s : St) (file : A) : CustomErrors * St :=
  match callback with
  | Some v => v s file
  | None => (NoErrors, s)
  end.

(** One round of the [files.forEach] of [setFiles], on the two arrays and the
    state of the callback. *)
Definition setFilesEachCalling (arrays : list A * list (FileRejection A) * St) (file : A)
  : list A * list (FileRejection A) * St :=
  let '(acceptedFiles, fileRejections, s) := arrays in
  let '(accepted, acceptError) := fileAccepted file (acceptAttr props) in
  let '(sizeMatch, sizeError) := fileMatchSize file (minSize props) (maxSize props) in
  let '(customErrors, s') := callValidator s file in
  if accepted && sizeMatch && negb (hasCustomErrors customErrors) then
    (acceptedFiles ++ [file], fileRejections, s')
  else
    let errors := [acceptError; sizeError] in
    let errors :=
      if hasCustomErrors customErrors then concatCustomErrors errors customErrors
      else errors in
    (acceptedFiles, fileRejections ++ [{| file := file; errors := filterErrors errors |}], s').

(** [setFiles] with such a callback: the two arrays it dispatches, and the
    state the callback is left in. *)
Definition setFilesCalling (files : list A) (s : St)
  : list A * list (FileRejection A) * St :=
  let '(acceptedFiles, fileRejections, s') :=
    fold_left setFilesEachCalling files ([], [], s) in
  if tooManyFiles (multiple props) (maxFiles props) (length acceptedFiles) then
    ([],
     fold_left
       (fun rejections file =>
          rejections ++ [{| file := file; errors := [TOO_MANY_FILES_REJECTION] |}])
       acceptedFiles fileRejections,
     s')
  else (acceptedFiles, fileRejections, s').

(** The state after this [setFiles] has dispatched. *)
Definition setFilesStateCalling (files : list A) (s : St) (state : State A) : State A :=
  let '(acceptedFiles, fileRejections, _) := setFilesCalling files s in
  reducer state (setFilesAction acceptedFiles fileRejections).

(** The options with the validator that answers as the callback does in the
    state [s]. *)
Definition answeringAs (s : St) : Props A :=
  withValidator props
    match callback with
    | Some v => Some (fun file => fst (v s file))
    | None => None
    end.

End CallingValidator.

(** A validator that lets its first call pass and reports an error on every
    later call; its state says whether it was called. *)
Definition passesFirstCallOnly : option (bool -> File -> CustomErrors * bool) :=
  Some (fun (called : bool) (_ : File) =>
          (if called then OneError Sample.customError else NoErrors, true)).

(** * Properties *)

(** ** The type and size checks *)
Section PolicyFacts.

Context {A : Type} `{FileLike A}.

Lemma accepts_undefined (f : A) : accepts f AcceptUndefined = true.
Proof. reflexivity. Qed.

Lemma accepts_empty_string (f : A) : accepts f (AcceptString "") = true.
Proof. reflexivity. Qed.

Lemma accepts_empty_array (f : A) : accepts f (AcceptArray []) = false.
Proof. reflexivity. Qed.

Lemma fileAccepted_fst (f : A) (accept : AcceptArg) :
  fst (fileAccepted f accept) = isMozFile f || accepts f accept.
Proof. reflexivity. Qed.

Lemma fileAccepted_snd (f : A) (accept : AcceptArg) :
  snd (fileAccepted f accept) =
  if fst (fileAccepted f accept) then None else Some (getInvalidTypeRejectionErr accept).
Proof. reflexivity. Qed.

Lemma isMozFile_true (f : A) : get_type f = Some MOZ_FILE -> isMozFile f = true.
Proof.
  intros Htype. unfold isMozFile. rewrite Htype. apply String.eqb_refl.
Qed.

Lemma isMozFile_false (f : A) : get_type f <> Some MOZ_FILE -> isMozFile f = false.
Proof.
  intros Htype. unfold isMozFile.
  destruct (get_type f) as [t|]; [|reflexivity].
  apply String.eqb_neq. intros ->. now apply Htype.
Qed.

(** C7: a file whose reported MIME type is exactly the literal
    [application/x-moz-file] passes the type check of [fileAccepted], with no
    invalid-type error, whatever the accepted types are. *)
Theorem moz_file_always_accepted (f : A) (accept : AcceptArg) :
  get_type f = Some MOZ_FILE -> fileAccepted f accept = (true, None).
Proof.
  intros Htype. unfold fileAccepted.
  now rewrite (isMozFile_true f Htype).
Qed.

(** C9: with an empty array of accepted types, [accepts] is false for every
    file, and [fileAccepted] rejects every file that is not the moz-file
    special case with the invalid-type error; with no accepted types at all
    both accept every file. *)
Theorem empty_accept_array_rejects (f : A) :
  accepts f (AcceptArray []) = false
  /\ (get_type f <> Some MOZ_FILE ->
      fileAccepted f (AcceptArray []) =
      (false, Some (getInvalidTypeRejectionErr (AcceptArray []))))
  /\ accepts f AcceptUndefined = true
  /\ fileAccepted f AcceptUndefined = (true, None).
Proof.
  repeat split.
  - intros Hmoz. unfold fileAccepted.
    now rewrite (isMozFile_false f Hmoz), accepts_empty_array.
  - unfold fileAccepted. rewrite accepts_undefined.
    now rewrite orb_true_r.
Qed.

Lemma fileMatchSize_unknown (f : A) (lo hi : option JsNum) :
  get_size f = None -> fileMatchSize f lo hi = (true, None).
Proof.
  intros Hsize. unfold fileMatchSize. now rewrite Hsize.
Qed.

Lemma fileMatchSize_too_large (f : A) (size : Z) (lo hi : JsNum) :
  get_size f = Some size -> sizeGt size hi = true ->
  fileMatchSize f (Some lo) (Some hi) = (false, Some (getTooLargeRejectionErr hi)).
Proof.
  intros Hsize Hgt. unfold fileMatchSize. now rewrite Hsize, Hgt.
Qed.

(** C4: when the size is known and both bounds are set, a size above [maxSize]
    gives the too-large error, also when the size is below [minSize] as well,
    and that error is not the too-small one; when the size is unknown the
    check is [true] with no error, whatever the bounds. *)
Theorem size_check_max_first (f : A) :
  (forall size lo hi,
      get_size f = Some size -> sizeGt size hi = true ->
      fileMatchSize f (Some lo) (Some hi) = (false, Some (getTooLargeRejectionErr hi))
      /\ code (getTooLargeRejectionErr hi) = FILE_TOO_LARGE
      /\ getTooLargeRejectionErr hi <> getTooSmallRejectionErr lo)
  /\ (get_size f = None -> forall lo hi, fileMatchSize f lo hi = (true, None)).
Proof.
  split.
  - intros size lo hi Hsize Hgt. split; [|split].
    + now apply fileMatchSize_too_large with size.
    + reflexivity.
    + intros Heq. apply (f_equal code) in Heq. discriminate Heq.
  - intros Hsize lo hi. now apply fileMatchSize_unknown.
Qed.

End PolicyFacts.

Lemma moz_file_always_accepted_witness :
  get_type Sample.mozFile = Some MOZ_FILE
  /\ fileAccepted Sample.mozFile (AcceptArray [".png"; "image/*"]) = (true, None).
Proof.
  split; [reflexivity|].
  apply (moz_file_always_accepted Sample.mozFile (AcceptArray [".png"; "image/*"])).
  reflexivity.
Defined.

Lemma empty_accept_array_rejects_witness :
  get_type Sample.png <> Some MOZ_FILE
  /\ fileAccepted Sample.png (AcceptArray []) =
     (false, Some (getInvalidTypeRejectionErr (AcceptArray []))).
Proof.
  assert (Hpng : get_type Sample.png <> Some MOZ_FILE) by discriminate.
  split; [exact Hpng|].
  exact (proj1 (proj2 (empty_accept_array_rejects Sample.png)) Hpng).
Defined.

(** The example of the specification (size 100, minimum 50, maximum 10), a
    size outside both bounds (minimum 200), and an item, whose size is
    unknown. *)
Lemma size_check_max_first_witness :
  fileMatchSize Sample.png (Some (Num 50)) (Some (Num 10)) =
    (false, Some {| code := "file-too-large"; message := "File is larger than 10 bytes" |})
  /\ fileMatchSize Sample.png (Some (Num 200)) (Some (Num 10)) =
       (false, Some {| code := "file-too-large"; message := "File is larger than 10 bytes" |})
  /\ fileMatchSize Sample.pngItem (Some (Num 200)) (Some (Num 10)) = (true, None).
Proof.
  split; [|split].
  - apply (proj1 (size_check_max_first Sample.png) 100%Z (Num 50) (Num 10)); reflexivity.
  - apply (proj1 (size_check_max_first Sample.png) 100%Z (Num 200) (Num 10)); reflexivity.
  - apply (proj2 (size_check_max_first Sample.pngItem)); reflexivity.
Defined.

(** Matching by extension ignores case; a wildcard matches the primary type. *)
Example accepts_extension_any_case :
  accepts (mkFile "a.jpg" "" 3 None None) (AcceptArray [".JPG"]) = true.
Proof. reflexivity. Qed.

Example accepts_wildcard :
  accepts Sample.png (AcceptArray ["image/*"]) = true
  /\ accepts Sample.txt (AcceptArray ["image/*"]) = false
  /\ accepts Sample.txt (AcceptString "image/*, TEXT/plain") = true.
Proof. repeat split. Qed.

(** Through the hook an empty [accept] object becomes the empty string, which
    is falsy: every file is accepted, as with no [accept] at all. *)
Lemma empty_accept_prop_accepts_all {A : Type} `{FileLike A} (f : A) :
  acceptPropAsAcceptAttr (Some []) = AcceptString ""
  /\ fileAccepted f (acceptPropAsAcceptAttr (Some [])) = (true, None).
Proof.
  split; [reflexivity|].
  cbn [acceptPropAsAcceptAttr fold_left filter JsString.join].
  unfold fileAccepted. rewrite accepts_empty_string. now rewrite orb_true_r.
Qed.

(** ** The reducer *)

(** C8: [closeDialog] sets [isFileDialogActive] to false and leaves every other
    field of the state as it was. *)
Theorem closeDialog_frame {A : Type} (state : State A) :
  isFileDialogActive (reducer state closeDialog) = false
  /\ isFocused (reducer state closeDialog) = isFocused state
  /\ isDragActive (reducer state closeDialog) = isDragActive state
  /\ isDragAccept (reducer state closeDialog) = isDragAccept state
  /\ isDragReject (reducer state closeDialog) = isDragReject state
  /\ acceptedFiles (reducer state closeDialog) = acceptedFiles state
  /\ fileRejections (reducer state closeDialog) = fileRejections state.
Proof.
  destruct state; cbn. repeat split.
Qed.

Lemma reset_idempotent {A : Type} (state : State A) :
  reducer (reducer state reset) reset = reducer state reset.
Proof. reflexivity. Qed.

Lemma closeDialog_sample :
  reducer Sample.someState closeDialog =
  {| isFocused := true;
     isFileDialogActive := false;
     isDragActive := true;
     isDragAccept := false;
     isDragReject := true;
     acceptedFiles := [Sample.png];
     fileRejections := [tooManyRejection Sample.txt] |}.
Proof. reflexivity. Qed.

(** A drop whose files are processed leaves the reset state with the two
    arrays of the batch. *)
Lemma onDropCb_processed {A : Type} `{FileLike A} (props : Props A) (files : list A)
  (state : State A) :
  onDropCb props false (Some files) state = setFilesState props files initialState.
Proof. reflexivity. Qed.

Lemma onDropCb_no_files {A : Type} `{FileLike A} (props : Props A) (stopped : bool)
  (state : State A) :
  onDropCb props stopped None state = initialState.
Proof. reflexivity. Qed.

(** ** Batch evaluation *)
Section SetFilesFacts.

Context {A : Type} `{FileLike A}.
Variable props : Props A.

Lemma concatCustomErrors_none (errors : list (option FileError)) (ce : CustomErrors) :
  hasCustomErrors ce = false -> concatCustomErrors errors ce = errors.
Proof.
  destruct ce; simpl; [reflexivity | discriminate | discriminate].
Qed.

Lemma setFilesEach_eq (accepted : list A) (rejections : list (FileRejection A)) (f : A) :
  setFilesEach props (accepted, rejections) f =
  if passesChecks props f then (accepted ++ [f], rejections)
  else (accepted, rejections ++ [checkRejection props f]).
Proof.
  unfold setFilesEach, passesChecks, checkRejection.
  destruct (fileAccepted f (acceptAttr props)) as [ok acceptError].
  destruct (fileMatchSize f (minSize props) (maxSize props)) as [sizeMatch sizeError].
  cbn [fst snd].
  destruct (hasCustomErrors (runValidator (validator props) f)) eqn:Hce.
  - now rewrite !andb_false_r.
  - rewrite (concatCustomErrors_none _ _ Hce).
    now destruct (ok && sizeMatch && negb false).
Qed.

Lemma fold_setFilesEach (files : list A) :
  forall accepted rejections,
    fold_left (setFilesEach props) files (accepted, rejections) =
    (accepted ++ filter (passesChecks props) files,
     rejections
       ++ map (checkRejection props) (filter (fun f => negb (passesChecks props f)) files)).
Proof.
  induction files as [|f files IH]; intros accepted rejections; cbn [fold_left filter].
  - now rewrite !app_nil_r.
  - rewrite setFilesEach_eq.
    destruct (passesChecks props f); cbn [negb map]; rewrite IH.
    + now rewrite <- app_assoc.
    + now rewrite <- app_assoc.
Qed.

Lemma fold_push {B C : Type} (g : B -> C) (l : list B) :
  forall start, fold_left (fun pushed x => pushed ++ [g x]) l start = start ++ map g l.
Proof.
  induction l as [|x l IH]; intros start; cbn [fold_left map].
  - now rewrite app_nil_r.
  - rewrite IH. now rewrite <- app_assoc.
Qed.

(** [setFiles] as a partition of the batch followed by the cardinality test on
    the files that passed. *)
Lemma setFiles_eq (files : list A) :
  setFiles props files =
  let passed := filter (passesChecks props) files in
  let failed := filter (fun f => negb (passesChecks props f)) files in
  if tooManyFiles (multiple props) (maxFiles props) (length passed) then
    ([], map (checkRejection props) failed ++ map tooManyRejection passed)
  else (passed, map (checkRejection props) failed).
Proof.
  unfold setFiles. rewrite fold_setFilesEach. cbn [app].
  destruct (tooManyFiles (multiple props) (maxFiles props)
              (length (filter (passesChecks props) files))); [|reflexivity].
  f_equal. apply (fold_push tooManyRejection).
Qed.

Lemma map_file_checkRejection (l : list A) : map file (map (checkRejection props) l) = l.
Proof.
  induction l as [|x l IH]; cbn; [reflexivity | now rewrite IH].
Qed.

Lemma map_file_tooManyRejection (l : list A) : map file (map tooManyRejection l) = l.
Proof.
  induction l as [|x l IH]; cbn; [reflexivity | now rewrite IH].
Qed.

Lemma in_passed_or_failed (files : list A) (f : A) :
  In f files <->
  In f (filter (passesChecks props) files)
  \/ In f (filter (fun f => negb (passesChecks props f)) files).
Proof.
  rewrite !filter_In. split.
  - intros Hin. destruct (passesChecks props f); [left | right]; now split.
  - intros [[Hin _] | [Hin _]]; exact Hin.
Qed.

Lemma tooManyFiles_one (multiple : bool) (maxFiles : Z) (n : nat) :
  (n <= 1)%nat -> tooManyFiles multiple maxFiles n = false.
Proof.
  intros Hn. unfold tooManyFiles.
  destruct multiple; cbn [negb andb orb].
  - destruct (1 <=? maxFiles)%Z eqn:Hmax; [|reflexivity].
    apply Z.leb_le in Hmax. apply Z.ltb_ge. lia.
  - rewrite orb_false_r. apply Nat.ltb_ge. exact Hn.
Qed.

(** C2: when the files that pass the per-file checks are too many (more than
    one with [multiple] false, more than [maxFiles] with [multiple] true and
    [maxFiles >= 1]), [setFiles] accepts none: every one of them is appended to
    the rejections, in order, with the single too-many-files error, after the
    rejections of the files that failed the per-file checks. *)
Theorem cardinality_all_or_nothing (files : list A) :
  tooManyFiles (multiple props) (maxFiles props)
    (length (filter (passesChecks props) files)) = true ->
  setFiles props files =
  ([],
   map (checkRejection props) (filter (fun f => negb (passesChecks props f)) files)
     ++ map (fun f => {| file := f; errors := [TOO_MANY_FILES_REJECTION] |})
          (filter (passesChecks props) files)).
Proof.
  intros Htoo. rewrite setFiles_eq. cbv zeta. now rewrite Htoo.
Qed.

(** With a validator that is a function of the file: after a batch is
    processed, no file is both among the accepted files and among the files
    of the rejections, and a file is in the batch exactly when it is in one of
    the two. *)
Theorem accepted_rejected_partition (files : list A) (state : State A) :
  let state' := setFilesState props files state in
  (forall f, In f (acceptedFiles state') -> ~ In f (map file (fileRejections state')))
  /\ (forall f,
         In f files <->
         In f (acceptedFiles state') \/ In f (map file (fileRejections state'))).
Proof.
  cbv zeta. unfold setFilesState. rewrite setFiles_eq. cbv zeta.
  destruct (tooManyFiles (multiple props) (maxFiles props)
              (length (filter (passesChecks props) files)));
    cbn [reducer acceptedFiles fileRejections].
  - split.
    + intros f [].
    + intros f. rewrite map_app, map_file_checkRejection, map_file_tooManyRejection.
      rewrite in_app_iff, (in_passed_or_failed files f). cbn [In]. tauto.
  - rewrite map_file_checkRejection. split.
    + intros f Hpass Hfail. apply filter_In in Hpass, Hfail.
      destruct Hpass as [_ Hpass], Hfail as [_ Hfail].
      rewrite Hpass in Hfail. discriminate Hfail.
    + intros f. apply in_passed_or_failed.
Qed.

(** C6: for a batch of one file the accepted files are not empty exactly when
    the file passes the type check, the size check and the validator (there is
    none, or it returns [null]); the accepted files are then the file itself,
    and otherwise the file is the one rejection. *)
Theorem singleton_accepted_iff (f : A) :
  (fst (setFiles props [f]) <> [] <->
   fst (fileAccepted f (acceptAttr props)) = true
   /\ fst (fileMatchSize f (minSize props) (maxSize props)) = true
   /\ runValidator (validator props) f = NoErrors)
  /\ setFiles props [f] =
     (if passesChecks props f then ([f], []) else ([], [checkRejection props f])).
Proof.
  assert (Heq : setFiles props [f] =
                if passesChecks props f then ([f], []) else ([], [checkRejection props f])).
  { rewrite setFiles_eq. cbv zeta. cbn [filter].
    destruct (passesChecks props f); cbn [negb length map app].
    - now rewrite tooManyFiles_one by lia.
    - now rewrite tooManyFiles_one by lia. }
  split; [|exact Heq].
  rewrite Heq. unfold passesChecks.
  destruct (fst (fileAccepted f (acceptAttr props)));
    destruct (fst (fileMatchSize f (minSize props) (maxSize props)));
    destruct (runValidator (validator props) f); cbn;
    split; try (intros _; repeat split; discriminate);
    try (intros Hne; now contradiction Hne);
    try (intros (? & ? & ?); discriminate).
Qed.

End SetFilesFacts.

(** The example of the specification: [multiple] true, [maxFiles] 2 and three
    files that pass every check. *)
Lemma cardinality_all_or_nothing_witness :
  tooManyFiles true 2 (length (filter (passesChecks Sample.atMostTwo)
                                 [Sample.png; Sample.txt; Sample.pdf])) = true
  /\ setFiles Sample.atMostTwo [Sample.png; Sample.txt; Sample.pdf] =
     ([], [tooManyRejection Sample.png; tooManyRejection Sample.txt;
           tooManyRejection Sample.pdf]).
Proof.
  split; [reflexivity|].
  exact (cardinality_all_or_nothing Sample.atMostTwo
           [Sample.png; Sample.txt; Sample.pdf] eq_refl).
Defined.

(** An image and a text file under [imagesOnly]: the image is accepted and is
    not among the rejected files, the text file is rejected. *)
Lemma accepted_rejected_partition_witness :
  setFiles Sample.imagesOnly [Sample.png; Sample.txt] =
    ([Sample.png],
     [{| file := Sample.txt;
         errors := [{| code := "file-invalid-type";
                       message := "File type must be image/*" |}] |}])
  /\ ~ In Sample.png
        (map file (fileRejections
                     (setFilesState Sample.imagesOnly [Sample.png; Sample.txt]
                        initialState))).
Proof.
  split; [reflexivity|].
  apply (proj1 (accepted_rejected_partition Sample.imagesOnly
                  [Sample.png; Sample.txt] initialState) Sample.png).
  left. reflexivity.
Defined.

Lemma accepted_rejected_partition_sample :
  setFilesState (@Sample.strictProps File) [Sample.png; Sample.txt] initialState =
  {| isFocused := false;
     isFileDialogActive := false;
     isDragActive := false;
     isDragAccept := false;
     isDragReject := false;
     acceptedFiles := [];
     fileRejections :=
       [{| file := Sample.png; errors := [Sample.customError] |};
        {| file := Sample.txt; errors := [Sample.customError] |}] |}.
Proof. reflexivity. Qed.

Lemma singleton_accepted_iff_witness :
  fst (setFiles Sample.atMostTwo [Sample.png]) <> []
  /\ setFiles (@Sample.strictProps File) [Sample.png] =
     ([], [{| file := Sample.png; errors := [Sample.customError] |}]).
Proof.
  split.
  - apply (proj1 (singleton_accepted_iff Sample.atMostTwo Sample.png)).
    repeat split.
  - exact (proj2 (singleton_accepted_iff Sample.strictProps Sample.png)).
Defined.

(** ** Batches and a validator with a state *)
Section CallingFacts.

Context {A : Type} `{FileLike A} {St : Type}.
Variable props : Props A.
Variable callback : option (St -> A -> CustomErrors * St).

Lemma fold_calling (files : list A) :
  forall accepted rejections s,
  exists passed failed s',
    fold_left (setFilesEachCalling props callback) files (accepted, rejections, s) =
    (accepted ++ passed, rejections ++ failed, s')
    /\ Permutation (passed ++ map file failed) files.
Proof.
  induction files as [|f files IH]; intros accepted rejections s; cbn [fold_left].
  - exists [], [], s. rewrite !app_nil_r. split; [reflexivity | constructor].
  - unfold setFilesEachCalling at 2.
    destruct (fileAccepted f (acceptAttr props)) as [ok acceptError].
    destruct (fileMatchSize f (minSize props) (maxSize props)) as [sizeMatch sizeError].
    destruct (callValidator callback s f) as [customErrors s1].
    destruct (ok && sizeMatch && negb (hasCustomErrors customErrors)).
    + destruct (IH (accepted ++ [f]) rejections s1) as (passed & failed & s' & Hfold & Hperm).
      exists (f :: passed), failed, s'. split.
      * rewrite Hfold, <- app_assoc. reflexivity.
      * cbn [app]. now constructor.
    + match goal with
      | |- context [rejections ++ [?r]] =>
          destruct (IH accepted (rejections ++ [r]) s1)
            as (passed & failed & s' & Hfold & Hperm);
          exists passed, (r :: failed), s'
      end.
      split.
      * rewrite Hfold, <- app_assoc. reflexivity.
      * cbn [map file]. apply Permutation_sym.
        eapply Permutation_trans; [|apply Permutation_middle].
        now apply perm_skip, Permutation_sym.
Qed.

(** Whatever the callback answers, the two arrays hold the files of the
    batch, each as often as the batch does. *)
Lemma setFilesCalling_permutation (files : list A) (s : St) :
  Permutation
    (fst (fst (setFilesCalling props callback files s))
       ++ map file (snd (fst (setFilesCalling props callback files s))))
    files.
Proof.
  unfold setFilesCalling.
  destruct (fold_calling files [] [] s) as (passed & failed & s' & Hfold & Hperm).
  rewrite Hfold. cbn [app].
  destruct (tooManyFiles (multiple props) (maxFiles props) (length passed)); cbn [fst snd app].
  - change (fold_left _ passed failed)
      with (fold_left (fun pushed x => pushed ++ [tooManyRejection x]) passed failed).
    rewrite (fold_push tooManyRejection), map_app, map_file_tooManyRejection.
    eapply Permutation_trans; [apply Permutation_app_comm | exact Hperm].
  - exact Hperm.
Qed.

Lemma NoDup_app_disjoint {B : Type} (l l' : list B) (x : B) :
  NoDup (l ++ l') -> In x l -> ~ In x l'.
Proof.
  induction l as [|y l IH]; cbn [app]; intros Hnodup Hin; [contradiction Hin|].
  inversion Hnodup as [|? ? Hnot Hrest]; subst.
  destruct Hin as [-> | Hin]; [|now apply IH].
  intros Hin'. apply Hnot. apply in_app_iff. now right.
Qed.

Lemma setFilesEachCalling_agrees (s0 s : St) (accepted : list A)
  (rejections : list (FileRejection A)) (f : A) :
  (forall v, callback = Some v -> forall s1 s2 file, fst (v s1 file) = fst (v s2 file)) ->
  fst (setFilesEachCalling props callback (accepted, rejections, s) f) =
  setFilesEach (answeringAs props callback s0) (accepted, rejections) f.
Proof.
  intros Hsame. unfold setFilesEachCalling, setFilesEach.
  change (acceptAttr (answeringAs props callback s0)) with (acceptAttr props).
  cbn [answeringAs withValidator minSize maxSize validator].
  destruct (fileAccepted f (acceptAttr props)) as [ok acceptError].
  destruct (fileMatchSize f (minSize props) (maxSize props)) as [sizeMatch sizeError].
  assert (Hanswer :
    fst (callValidator callback s f) =
    runValidator match callback with
                 | Some v => Some (fun file => fst (v s0 file))
                 | None => None
                 end f).
  { unfold callValidator, runValidator.
    destruct callback as [v|]; [apply (Hsame v eq_refl) | reflexivity]. }
  rewrite <- Hanswer.
  destruct (callValidator callback s f) as [customErrors s1]. cbn [fst].
  now destruct (ok && sizeMatch && negb (hasCustomErrors customErrors)).
Qed.

Lemma fold_calling_agrees (s0 : St) (files : list A) :
  (forall v, callback = Some v -> forall s1 s2 file, fst (v s1 file) = fst (v s2 file)) ->
  forall accepted rejections s,
    fst (fold_left (setFilesEachCalling props callback) files (accepted, rejections, s)) =
    fold_left (setFilesEach (answeringAs props callback s0)) files (accepted, rejections).
Proof.
  intros Hsame. induction files as [|f files IH]; intros accepted rejections s;
    cbn [fold_left]; [reflexivity|].
  rewrite <- (setFilesEachCalling_agrees s0 s accepted rejections f Hsame).
  destruct (setFilesEachCalling props callback (accepted, rejections, s) f)
    as [[accepted' rejections'] s1].
  apply IH.
Qed.

(** When the answers of the callback do not depend on its state, [setFiles]
    is the [setFiles] of a validator that is a function of the file. *)
Lemma setFilesCalling_agrees (s0 : St) (files : list A) (s : St) :
  (forall v, callback = Some v -> forall s1 s2 file, fst (v s1 file) = fst (v s2 file)) ->
  fst (setFilesCalling props callback files s) =
  setFiles (answeringAs props callback s0) files.
Proof.
  intros Hsame. unfold setFilesCalling, setFiles.
  rewrite <- (fold_calling_agrees s0 files Hsame [] [] s).
  destruct (fold_left (setFilesEachCalling props callback) files ([], [], s))
    as [[accepted rejections] s1]. cbn [fst].
  cbn [answeringAs withValidator multiple maxFiles].
  now destruct (tooManyFiles (multiple props) (maxFiles props) (length accepted)).
Qed.

(** C3, as the code has it: after a batch is processed, a file is in the batch
    exactly when it is among the accepted files or among the files of the
    rejections, whatever the validator answers from call to call; and no file
    is in both when no file occurs twice in the batch, or when the answers of
    the validator depend on the file alone. *)
Theorem accepted_rejected_cover (files : list A) (s : St) (state : State A) :
  let state' := setFilesStateCalling props callback files s state in
  (forall f,
      In f files <->
      In f (acceptedFiles state') \/ In f (map file (fileRejections state')))
  /\ (NoDup files ->
      forall f, In f (acceptedFiles state') -> ~ In f (map file (fileRejections state')))
  /\ ((forall v, callback = Some v ->
                 forall s1 s2 file, fst (v s1 file) = fst (v s2 file)) ->
      forall f, In f (acceptedFiles state') -> ~ In f (map file (fileRejections state'))).
Proof.
  cbv zeta.
  assert (Hstate :
    acceptedFiles (setFilesStateCalling props callback files s state) =
      fst (fst (setFilesCalling props callback files s))
    /\ fileRejections (setFilesStateCalling props callback files s state) =
       snd (fst (setFilesCalling props callback files s))).
  { unfold setFilesStateCalling.
    now destruct (setFilesCalling props callback files s) as [[accepted rejections] s1]. }
  destruct Hstate as [-> ->].
  pose proof (setFilesCalling_permutation files s) as Hperm.
  split; [|split].
  - intros f. rewrite <- in_app_iff. split.
    + apply Permutation_in, Permutation_sym, Hperm.
    + apply Permutation_in, Hperm.
  - intros Hnodup f. apply NoDup_app_disjoint.
    apply (Permutation_NoDup (Permutation_sym Hperm) Hnodup).
  - intros Hsame f. rewrite (setFilesCalling_agrees s files s Hsame).
    pose proof (accepted_rejected_partition (answeringAs props callback s) files state)
      as [Hdisjoint _].
    unfold setFilesState in Hdisjoint.
    destruct (setFiles (answeringAs props callback s) files) as [accepted rejections].
    exact (Hdisjoint f).
Qed.

End CallingFacts.

(** An image and a text file, each listed once, with a validator that lets
    only its first call pass: the image is accepted and is not among the
    rejected files.  And an image listed twice, with a validator that counts
    its calls and always answers [null]: the image is accepted, twice, and is
    not among the rejected files. *)
Lemma accepted_rejected_cover_witness :
  setFilesCalling defaultProps passesFirstCallOnly [Sample.png; Sample.txt] false =
    ([Sample.png], [{| file := Sample.txt; errors := [Sample.customError] |}], true)
  /\ ~ In Sample.png
        (map file
           (fileRejections
              (setFilesStateCalling defaultProps passesFirstCallOnly
                 [Sample.png; Sample.txt] false initialState)))
  /\ setFilesCalling Sample.imagesOnly
       (Some (fun (s : nat) (_ : File) => (NoErrors, S s)))
       [Sample.png; Sample.txt; Sample.png] 0 =
     ([Sample.png; Sample.png],
      [{| file := Sample.txt;
          errors := [{| code := "file-invalid-type";
                        message := "File type must be image/*" |}] |}],
      3)
  /\ ~ In Sample.png
        (map file
           (fileRejections
              (setFilesStateCalling Sample.imagesOnly
                 (Some (fun (s : nat) (_ : File) => (NoErrors, S s)))
                 [Sample.png; Sample.txt; Sample.png] 0 initialState))).
Proof.
  split; [reflexivity | split; [|split; [reflexivity|]]].
  - apply (proj1 (proj2 (accepted_rejected_cover defaultProps passesFirstCallOnly
                           [Sample.png; Sample.txt] false initialState))).
    + constructor.
      * intros [Heq | []]. discriminate Heq.
      * constructor; [intros [] | constructor].
    + left. reflexivity.
  - apply (proj2 (proj2 (accepted_rejected_cover Sample.imagesOnly
                           (Some (fun (s : nat) (_ : File) => (NoErrors, S s)))
                           [Sample.png; Sample.txt; Sample.png] 0 initialState))).
    + intros v Hv s1 s2 f. injection Hv as <-. reflexivity.
    + left. reflexivity.
Defined.

(** C3 as stated fails: one file listed twice in the batch, with a validator
    that lets only its first call pass, ends both among the accepted files
    and among the files of the rejections. *)
Lemma accepted_rejected_counterexample :
  setFilesCalling defaultProps passesFirstCallOnly [Sample.png; Sample.png] false =
    ([Sample.png], [{| file := Sample.png; errors := [Sample.customError] |}], true)
  /\ In Sample.png
       (acceptedFiles
          (setFilesStateCalling defaultProps passesFirstCallOnly
             [Sample.png; Sample.png] false initialState))
  /\ In Sample.png
       (map file
          (fileRejections
             (setFilesStateCalling defaultProps passesFirstCallOnly
                [Sample.png; Sample.png] false initialState))).
Proof.
  split; [reflexivity | split; left; reflexivity].
Qed.

(** With a callback that ignores its state the two models of [setFiles]
    give the same arrays. *)
Lemma setFilesCalling_sample :
  fst (setFilesCalling Sample.imagesOnly
         (Some (fun (s : nat) (_ : File) => (NoErrors, S s)))
         [Sample.png; Sample.txt] 0) =
  setFiles Sample.imagesOnly [Sample.png; Sample.txt].
Proof. reflexivity. Qed.

(** ** The drag decision on [dragenter] *)
Section DragFacts.

Context {A : Type} `{FileLike A}.
Variable props : Props A.

Lemma forallb_andb {B : Type} (p q : B -> bool) (l : list B) :
  forallb (fun x => p x && q x) l = forallb p l && forallb q l.
Proof.
  induction l as [|x l IH]; cbn [forallb]; [reflexivity|].
  rewrite IH. destruct (p x), (q x), (forallb p l); reflexivity.
Qed.

Lemma allFilesAccepted_eq (files : list A) :
  allFilesAccepted files (acceptAttr props) (minSize props) (maxSize props)
    (multiple props) (maxFiles props) (validator props) =
  negb (tooManyFiles (multiple props) (maxFiles props) (length files))
  && forallb
       (fun file =>
          fst (fileAccepted file (acceptAttr props))
          && fst (fileMatchSize file (minSize props) (maxSize props)))
       files
  && forallb (validatorPasses props) files.
Proof.
  unfold allFilesAccepted.
  destruct (tooManyFiles (multiple props) (maxFiles props) (length files));
    [reflexivity|].
  cbn [negb andb]. rewrite <- forallb_andb. reflexivity.
Qed.

Lemma dragFlags_eq (files : list A) :
  dragFlags props files =
  (typeSizeCardinalityOk props files && forallb (validatorPasses props) files,
   (0 <? length files)%nat
   && negb (typeSizeCardinalityOk props files && forallb (validatorPasses props) files)).
Proof.
  unfold dragFlags, typeSizeCardinalityOk. rewrite allFilesAccepted_eq.
  destruct (0 <? length files)%nat; cbn [andb negb]; reflexivity.
Qed.

End DragFacts.

(** C1, as the code has it: on [dragenter] the accept/reject decision is the
    type, size and cardinality checks together with the validator, which must
    return [null] for every dragged file; it is the decision by type, size and
    cardinality alone only when no validator is configured.  The decision is
    dispatched with [isDragActive] true. *)
Theorem drag_decision_with_validator {A : Type} `{FileLike A}
  (props : Props A) (files : list A) (state : State A) :
  dragFlags props files =
    (typeSizeCardinalityOk props files && forallb (validatorPasses props) files,
     (0 <? length files)%nat
     && negb (typeSizeCardinalityOk props files && forallb (validatorPasses props) files))
  /\ dragFlags (withValidator props None) files =
       (typeSizeCardinalityOk props files,
        (0 <? length files)%nat && negb (typeSizeCardinalityOk props files))
  /\ onDragEnterCb props false files state =
       reducer state
         (setDraggedFiles true (fst (dragFlags props files)) (snd (dragFlags props files))).
Proof.
  split; [|split].
  - apply dragFlags_eq.
  - rewrite dragFlags_eq.
    replace (forallb (validatorPasses (withValidator props None)) files) with true.
    + now rewrite !andb_true_r.
    + symmetry. apply forallb_forall. reflexivity.
  - unfold onDragEnterCb. cbn [andb].
    now destruct (dragFlags props files).
Qed.

(** C1 as stated fails: one dragged image passes the type, size and
    cardinality checks of the default options, and a validator that rejects
    it turns the decision into a reject. *)
Lemma drag_decision_counterexample :
  typeSizeCardinalityOk Sample.strictProps [Sample.pngItem] = true
  /\ dragFlags Sample.strictProps [Sample.pngItem] = (false, true)
  /\ dragFlags (withValidator Sample.strictProps None) [Sample.pngItem] = (true, false)
  /\ onDragEnterCb Sample.strictProps false [Sample.pngItem] initialState =
     {| isFocused := false;
        isFileDialogActive := false;
        isDragActive := true;
        isDragAccept := false;
        isDragReject := true;
        acceptedFiles := [];
        fileRejections := [] |}.
Proof. repeat split. Qed.

(** ** Extraction *)

Lemma withMimeType_name (f : File) : file_name (withMimeType f) = file_name f.
Proof.
  unfold withMimeType.
  destruct (negb (file_name f =? "")%string && JsString.hasDot (file_name f)
            && (file_type f =? "")%string); [|reflexivity].
  destruct (mapGet COMMON_MIME_TYPES _) as [type|]; [|reflexivity].
  now destruct (type =? "")%string.
Qed.

Lemma withMimeType_path (f : File) : file_path (withMimeType f) = file_path f.
Proof.
  unfold withMimeType.
  destruct (negb (file_name f =? "")%string && JsString.hasDot (file_name f)
            && (file_type f =? "")%string); [|reflexivity].
  destruct (mapGet COMMON_MIME_TYPES _) as [type|]; [|reflexivity].
  now destruct (type =? "")%string.
Qed.

Lemma toFileWithPath_name (f : File) (path : option string) :
  file_name (toFileWithPath f path) = file_name f.
Proof.
  unfold toFileWithPath.
  destruct (file_path (withMimeType f)); cbn [file_name]; apply withMimeType_name.
Qed.

(** The [path] of a descriptor made with a path argument: the file's own
    [path] when it had one, the argument otherwise. *)
Lemma toFileWithPath_path (f : File) (fullPath : string) :
  file_path (toFileWithPath f (Some fullPath)) =
  Some match file_path f with
       | Some own => own
       | None => fullPath
       end.
Proof.
  unfold toFileWithPath. rewrite withMimeType_path.
  destruct (file_path f) eqn:Hpath; cbn [file_path]; [|reflexivity].
  now rewrite withMimeType_path.
Qed.

Lemma fold_flat {B C : Type} (g : B -> list C) (l : list B) :
  forall start, fold_left (fun acc x => acc ++ g x) l start = start ++ flat_map g l.
Proof.
  induction l as [|x l IH]; intros start; cbn [fold_left flat_map].
  - now rewrite app_nil_r.
  - rewrite IH. now rewrite app_assoc.
Qed.

Lemma flatten_eq (items : list FileValue) : flatten items = flat_map flattenValue items.
Proof. unfold flatten. now rewrite fold_flat. Qed.

Lemma flattenValue_array (items : list FileValue) :
  flattenValue (FileArray items) = flatten items.
Proof. reflexivity. Qed.

Lemma flatten_cons (v : FileValue) (items : list FileValue) :
  flatten (v :: items) = flattenValue v ++ flatten items.
Proof. now rewrite !flatten_eq. Qed.

Lemma flattenValue_dirValue (files : list (list FileValue)) :
  flattenValue (dirValue files) = flat_map flatten files.
Proof.
  unfold dirValue. rewrite flattenValue_array, flatten_eq.
  induction files as [|batch files IH]; cbn [map flat_map]; [reflexivity|].
  now rewrite IH, flattenValue_array.
Qed.

Lemma all_snoc {T : Type} (promises : list (Promise T)) (p : Promise T) :
  all (promises ++ [p]) =
  match all promises, p with
  | Some vs, Some v => Some (vs ++ [v])
  | _, _ => None
  end.
Proof.
  induction promises as [|q promises IH]; cbn [app all].
  - destruct p; reflexivity.
  - destruct q as [w|]; cbn [andThen]; [|reflexivity].
    rewrite IH. destruct (all promises), p; reflexivity.
Qed.

Lemma fromEntry_directory (reads : list (option (list Entry))) :
  fromEntry (DirectoryEntry reads) = files <- fromDirEntry reads ;; resolve (dirValue files).
Proof. reflexivity. Qed.

Lemma entryFiles_directory (reads : list (option (list Entry))) :
  entryFiles (DirectoryEntry reads) = readsFiles reads.
Proof. reflexivity. Qed.

Lemma readable_directory (reads : list (option (list Entry))) :
  readable (DirectoryEntry reads) = readableReads reads.
Proof. reflexivity. Qed.

Lemma batch_settles (batch : list Entry) :
  Forall entrySettles batch ->
  option_map flatten (all (map fromEntry batch)) =
  if forallb readable batch then Some (map fileAt (flat_map entryFiles batch)) else None.
Proof.
  induction 1 as [|e es He _ IH]; [reflexivity|].
  cbn [map all forallb flat_map]. unfold entrySettles in He.
  destruct (fromEntry e) as [v|]; cbn [option_map andThen] in He |- *.
  - destruct (readable e); [|discriminate He]. injection He as He.
    destruct (all (map fromEntry es)) as [vs|]; cbn [option_map andThen resolve andb] in IH |- *.
    + destruct (forallb readable es); [|discriminate IH]. injection IH as IH.
      now rewrite flatten_cons, He, IH, map_app.
    + now destruct (forallb readable es).
  - now destruct (readable e).
Qed.

Lemma reads_settle (reads : list (option (list Entry))) :
  batchesSatisfy entrySettles reads ->
  forall entries,
    option_map (flat_map flatten) (readEntries reads entries) =
    match option_map (flat_map flatten) (all entries) with
    | Some before =>
        if readableReads reads then Some (before ++ map fileAt (readsFiles reads)) else None
    | None => None
    end.
Proof.
  induction 1 as [|read rest Hread _ IH]; intros entries.
  - cbn [readEntries readableReads readsFiles map].
    destruct (all entries); cbn [option_map]; [now rewrite app_nil_r | reflexivity].
  - destruct read as [[|e es]|].
    + cbn [readEntries readableReads readsFiles map].
      destruct (all entries); cbn [option_map]; [now rewrite app_nil_r | reflexivity].
    + cbn [readEntries readableReads readsFiles]. rewrite IH, all_snoc.
      pose proof (batch_settles (e :: es) Hread) as Hbatch.
      destruct (all entries) as [vs|]; cbn [option_map]; [|reflexivity].
      destruct (all (map fromEntry (e :: es))) as [v|]; cbn [option_map] in Hbatch |- *.
      * destruct (forallb readable (e :: es)); [|discriminate Hbatch].
        injection Hbatch as Hbatch.
        rewrite flat_map_app. cbn [flat_map andb]. rewrite app_nil_r.
        destruct (readableReads rest); [|reflexivity].
        now rewrite Hbatch, !map_app, !app_assoc.
      * now destruct (forallb readable (e :: es)).
    + cbn [readEntries readableReads]. now destruct (option_map _ (all entries)).
Qed.

Lemma entry_settles (entry : Entry) : entrySettles entry.
Proof.
  induction entry as [fullPath file | reads Hreads] using Entry_nested_ind.
  - destruct file; reflexivity.
  - unfold entrySettles.
    rewrite fromEntry_directory, readable_directory, entryFiles_directory.
    pose proof (reads_settle reads Hreads []) as Hsettle.
    cbn [all option_map resolve flat_map app] in Hsettle.
    unfold fromDirEntry.
    destruct (readEntries reads []) as [files|];
      cbn [andThen option_map resolve] in Hsettle |- *; [|exact Hsettle].
    now rewrite flattenValue_dirValue.
Qed.

(** [fromDirEntry] resolves exactly when no read below the directory fails,
    and what it resolves with flattens to the descriptors of the file entries
    below the directory, in the order of enumeration. *)
Lemma fromDirEntry_settles (reads : list (option (list Entry))) :
  option_map (flat_map flatten) (fromDirEntry reads) =
  if readableReads reads then Some (map fileAt (readsFiles reads)) else None.
Proof.
  pose proof (reads_settle reads) as Hsettle.
  unfold fromDirEntry. rewrite Hsettle.
  - reflexivity.
  - clear Hsettle. induction reads as [|read reads IH]; constructor; [|exact IH].
    destruct read as [batch|]; [|exact I].
    apply Forall_forall. intros e _. apply entry_settles.
Qed.

Lemma directory_item_settles (type : string) (asFile : option File)
  (reads : list (option (list Entry))) :
  option_map flattenValue (toFilePromises (directoryItem type asFile reads)) =
  if readable (DirectoryEntry reads) then Some (map fileAt (entryFiles (DirectoryEntry reads)))
  else None.
Proof.
  rewrite readable_directory, entryFiles_directory, <- fromDirEntry_settles.
  unfold toFilePromises, directoryItem. cbn [webkitGetAsEntry].
  destruct (fromDirEntry reads) as [files|]; cbn [andThen option_map resolve]; [|reflexivity].
  now rewrite flattenValue_dirValue.
Qed.

Lemma drop_of_directory (type : string) (asFile : option File)
  (reads : list (option (list Entry))) (fileList : JsList File) :
  getDataTransferFiles
    {| items := ListOf [directoryItem type asFile reads]; files := fileList |} "drop" =
  option_map (fun found => map ExtractedFile (noIgnoredFiles found))
    (option_map flattenValue (toFilePromises (directoryItem type asFile reads))).
Proof.
  unfold getDataTransferFiles. cbn [items].
  change (filter _ [directoryItem type asFile reads]) with [directoryItem type asFile reads].
  change (negb ("drop" =? "drop")%string) with false. cbn [map all].
  destruct (toFilePromises (directoryItem type asFile reads)) as [v|];
    cbn [andThen resolve option_map]; [|reflexivity].
  now rewrite flatten_cons, app_nil_r.
Qed.

(** C5, as the code has it: dropping a directory is rejected when a read
    below the directory fails, and otherwise resolves with one flat list: the
    descriptors of the file entries below the directory, batch after batch in
    the order of enumeration and whatever their depth, without the files whose
    name is on the ignore list.  A descriptor has the name of its file, and
    as [path] the full path of its entry unless the file already had a
    [path], which it keeps.  A directory with one file directly inside and
    one two directories further down, neither with an ignored name, gives
    exactly these two descriptors. *)
Theorem directory_drop_flattened (type : string) (asFile : option File)
  (reads : list (option (list Entry))) (fileList : JsList File) :
  let dt := {| items := ListOf [directoryItem type asFile reads]; files := fileList |} in
  getDataTransferFiles dt "drop" =
    (if readable (DirectoryEntry reads) then
       resolve (map ExtractedFile
                  (noIgnoredFiles (map fileAt (entryFiles (DirectoryEntry reads)))))
     else reject)
  /\ (forall fullPath f,
         file_name (fileAt (fullPath, f)) = file_name f
         /\ file_path (fileAt (fullPath, f)) =
            Some match file_path f with
                 | Some own => own
                 | None => fullPath
                 end)
  /\ (forall pathA pathB a b,
         reads = twoLevelReads pathA pathB a b ->
         notIgnored (file_name a) = true ->
         notIgnored (file_name b) = true ->
         getDataTransferFiles dt "drop" =
         resolve [ExtractedFile (fileAt (pathA, a)); ExtractedFile (fileAt (pathB, b))]).
Proof.
  cbv zeta.
  assert (Hdrop :
    getDataTransferFiles
      {| items := ListOf [directoryItem type asFile reads]; files := fileList |} "drop" =
    if readable (DirectoryEntry reads) then
      resolve (map ExtractedFile
                 (noIgnoredFiles (map fileAt (entryFiles (DirectoryEntry reads)))))
    else reject).
  { rewrite drop_of_directory, directory_item_settles.
    now destruct (readable (DirectoryEntry reads)). }
  split; [exact Hdrop | split].
  - intros fullPath f. unfold fileAt. cbn [fst snd].
    split; [apply toFileWithPath_name | apply toFileWithPath_path].
  - intros pathA pathB a b -> Ha Hb. rewrite Hdrop.
    change (readable (DirectoryEntry (twoLevelReads pathA pathB a b))) with true.
    change (entryFiles (DirectoryEntry (twoLevelReads pathA pathB a b)))
      with [(pathA, a); (pathB, b)].
    unfold noIgnoredFiles, fileAt. cbn [map filter fst snd].
    now rewrite !toFileWithPath_name, Ha, Hb.
Qed.

Lemma directory_drop_flattened_witness :
  getDataTransferFiles Sample.photosTransfer "drop" =
  resolve
    [ExtractedFile
       {| file_name := "cat.png"; file_type := "image/png"; file_size := 100;
          file_path := Some "/photos/cat.png"; file_webkitRelativePath := None |};
     ExtractedFile
       {| file_name := "notes.txt"; file_type := "text/plain"; file_size := 7;
          file_path := Some "/photos/2024/notes/notes.txt";
          file_webkitRelativePath := None |}].
Proof.
  exact (proj2 (proj2 (directory_drop_flattened "" None
                         (twoLevelReads "/photos/cat.png" "/photos/2024/notes/notes.txt"
                            Sample.png Sample.txt)
                         (ListOf [])))
           "/photos/cat.png" "/photos/2024/notes/notes.txt" Sample.png Sample.txt
           eq_refl eq_refl eq_refl).
Defined.

(** C5 as stated fails.  A dropped directory holds [.DS_Store] directly
    inside and, two directories further down, a file that already has a
    [path]: two file entries are enumerated, one descriptor comes out, and its
    [path] is the one it had, not the full path [/photos/2024/raw/raw.png] of
    its entry.  And when reading the deeper file fails, nothing comes out. *)
Lemma directory_drop_counterexample :
  map fst (entryFiles (DirectoryEntry
             (twoLevelReads "/photos/.DS_Store" "/photos/2024/raw/raw.png"
                Sample.dsStore Sample.electronFile))) =
    ["/photos/.DS_Store"; "/photos/2024/raw/raw.png"]
  /\ getDataTransferFiles Sample.junkTransfer "drop" =
     resolve
       [ExtractedFile
          {| file_name := "raw.png"; file_type := "image/png"; file_size := 9;
             file_path := Some "/home/u/photos/2024/raw/raw.png";
             file_webkitRelativePath := None |}]
  /\ getDataTransferFiles Sample.unreadableTransfer "drop" = reject.
Proof. repeat split. Qed.

(** ** The ignore list *)

Lemma drop_output_not_ignored (dt : DataTransfer) (out : list Extracted) (f : File) :
  getDataTransferFiles dt "drop" = resolve out ->
  In (ExtractedFile f) out -> notIgnored (file_name f) = true.
Proof.
  unfold getDataTransferFiles, resolve.
  change (negb ("drop" =? "drop")%string) with false. cbv iota.
  assert (Hkept : forall found,
             In (ExtractedFile f) (map ExtractedFile (noIgnoredFiles found)) ->
             notIgnored (file_name f) = true).
  { intros found Hin. apply in_map_iff in Hin. destruct Hin as (g & Heq & Hin).
    injection Heq as ->. unfold noIgnoredFiles in Hin.
    apply filter_In in Hin. exact (proj2 Hin). }
  destruct (items dt) as [| |l].
  - destruct (fromList (files dt)); cbn [andThen]; [|discriminate].
    intros Hout. injection Hout as <-. apply Hkept.
  - destruct (fromList (files dt)); cbn [andThen]; [|discriminate].
    intros Hout. injection Hout as <-. apply Hkept.
  - destruct (all _); cbn [andThen]; [|discriminate].
    intros Hout. injection Hout as <-. apply Hkept.
Qed.

Lemma all_resolved {T : Type} (l : list T) : all (map resolve l) = resolve l.
Proof.
  induction l as [|x l IH]; cbn [map all]; [reflexivity|].
  rewrite IH. reflexivity.
Qed.

(** C10: extraction from an input change event maps every file of the input
    to a descriptor of the same name, in order, and filters nothing, so a
    selected file named [.DS_Store] is in the output; the same holds for file
    handles of the picker.  On a drop, by contrast, no extracted file has a
    name of the ignore list. *)
Theorem ignore_list_only_on_drag (selected : list File) :
  fromEvent (ChangeEvt (ListOf selected)) =
    resolve (map (fun f => ExtractedFile (toFileWithPath f None)) selected)
  /\ (forall f,
         In f selected -> file_name f = ".DS_Store" ->
         exists out,
           fromEvent (ChangeEvt (ListOf selected)) = resolve out
           /\ In (ExtractedFile (toFileWithPath f None)) out
           /\ file_name (toFileWithPath f None) = ".DS_Store")
  /\ fromEvent (HandlesEvt (map (fun f => FsHandle (resolve f)) selected)) =
       resolve (map (fun f => ExtractedFile (toFileWithPath f None)) selected)
  /\ (forall dt out f,
         fromEvent (DragEvt "drop" dt) = resolve out ->
         In (ExtractedFile f) out -> notIgnored (file_name f) = true).
Proof.
  split; [reflexivity | split; [|split]].
  - intros f Hin Hname. eexists. split; [reflexivity|]. split.
    + apply (in_map (fun f => ExtractedFile (toFileWithPath f None))). exact Hin.
    + now rewrite toFileWithPath_name.
  - cbn [fromEvent].
    replace (everyHasGetFile (map (fun f => FsHandle (resolve f)) selected))
      with (resolve true).
    + cbn [andThen resolve]. unfold getFsHandleFiles. rewrite map_map.
      change (all (map _ selected)) with (all (map (@resolve File) selected)).
      now rewrite all_resolved.
    + symmetry. clear. induction selected as [|f selected IH]; [reflexivity | exact IH].
  - intros dt out f. cbn [fromEvent]. apply drop_output_not_ignored.
Qed.

Lemma ignore_list_only_on_drag_witness :
  (exists out,
      fromEvent (ChangeEvt (ListOf [Sample.dsStore; Sample.png])) = resolve out
      /\ In (ExtractedFile (toFileWithPath Sample.dsStore None)) out
      /\ file_name (toFileWithPath Sample.dsStore None) = ".DS_Store")
  /\ fromEvent
       (DragEvt "drop"
          {| items := ListNull; files := ListOf [Sample.dsStore; Sample.png] |}) =
     resolve [ExtractedFile (toFileWithPath Sample.png None)]
  /\ notIgnored (file_name (toFileWithPath Sample.png None)) = true.
Proof.
  split; [|split].
  - apply (proj1 (proj2 (ignore_list_only_on_drag [Sample.dsStore; Sample.png]))
             Sample.dsStore).
    + left. reflexivity.
    + reflexivity.
  - reflexivity.
  - apply (proj2 (proj2 (proj2 (ignore_list_only_on_drag [])))
             {| items := ListNull; files := ListOf [Sample.dsStore; Sample.png] |}
             [ExtractedFile (toFileWithPath Sample.png None)]).
    + reflexivity.
    + left. reflexivity.
Defined.

(** An array of handles: a value that is no object makes the extraction fail,
    unless an object without [getFile] comes before it, which ends the test
    and gives the empty result. *)
Lemma handle_array_samples :
  fromEvent (HandlesEvt [FsHandle (resolve Sample.png); NotAnObject]) = reject
  /\ fromEvent (HandlesEvt [NotAHandle; NotAnObject]) = resolve []
  /\ fromEvent (HandlesEvt []) = resolve []
  /\ fromEvent (HandlesEvt [FsHandle (resolve Sample.png); FsHandle reject]) = reject.
Proof. repeat split. Qed.

Lemma ignore_list_samples :
  fromEvent (ChangeEvt (ListOf [Sample.dsStore])) =
    resolve
      [ExtractedFile
         {| file_name := ".DS_Store"; file_type := ""; file_size := 6148;
            file_path := Some ".DS_Store"; file_webkitRelativePath := None |}]
  /\ fromEvent (DragEvt "drop" {| items := ListNull; files := ListOf [Sample.dsStore] |}) =
       resolve [].
Proof. split; reflexivity. Qed.

(** * Further properties *)

(** ** Size bounds *)

(** X1: the size bounds are inclusive.  With a known size, the check passes
    exactly when the size lies between [minSize] and [maxSize]; with the
    default [maxSize], [Infinity], exactly when it is at least [minSize];
    with [maxSize] alone, exactly when it is at most [maxSize]. *)
Theorem size_bounds_inclusive {A : Type} `{FileLike A} (f : A) (size lo hi : Z) :
  get_size f = Some size ->
  (fst (fileMatchSize f (Some (Num lo)) (Some (Num hi))) = true <-> (lo <= size <= hi)%Z)
  /\ (fst (fileMatchSize f (Some (Num lo)) (Some Infinity)) = true <-> (lo <= size)%Z)
  /\ (fst (fileMatchSize f None (Some (Num hi))) = true <-> (size <= hi)%Z)
  /\ (fst (fileMatchSize f (Some (Num lo)) None) = true <-> (lo <= size)%Z).
Proof.
  intros Hsize. unfold fileMatchSize. rewrite Hsize. cbn [sizeGt sizeLt].
  repeat apply conj;
    repeat match goal with
           | |- context [(?a <? ?b)%Z] => destruct (Z.ltb_spec a b)
           end;
    cbn [fst]; repeat split; intros;
    first [discriminate | reflexivity | lia | exfalso; lia].
Qed.

Lemma size_bounds_inclusive_witness :
  fst (fileMatchSize Sample.png (Some (Num 100)) (Some (Num 100))) = true
  /\ fst (fileMatchSize Sample.png (Some (Num 101)) (Some Infinity)) = false.
Proof.
  pose proof (size_bounds_inclusive Sample.png 100 100 100 eq_refl) as (Hboth & _).
  pose proof (size_bounds_inclusive Sample.png 100 101 0 eq_refl) as (_ & Hmin & _).
  split.
  - apply Hboth. lia.
  - destruct (fst (fileMatchSize Sample.png (Some (Num 101)) (Some Infinity))) eqn:Hfst;
      [|reflexivity].
    exfalso. assert (Hle : (101 <= 100)%Z) by now apply Hmin.
    lia.
Defined.

(** ** Accepted types *)

Lemma split_no_comma (x : string) :
  noComma x = true -> JsString.split "," x = [x].
Proof.
  induction x as [|c x IH]; cbn [noComma JsString.split]; [reflexivity|].
  intros Hx. apply andb_prop in Hx. destruct Hx as [Hc Hx].
  apply negb_true_iff in Hc. rewrite Hc, (IH Hx). reflexivity.
Qed.

Lemma split_before_comma (x rest : string) :
  noComma x = true ->
  JsString.split "," (x ++ String "," rest)%string = x :: JsString.split "," rest.
Proof.
  induction x as [|c x IH]; cbn [noComma JsString.split String.append].
  - intros _. reflexivity.
  - intros Hx. apply andb_prop in Hx. destruct Hx as [Hc Hx].
    apply negb_true_iff in Hc. rewrite Hc, (IH Hx). reflexivity.
Qed.

(** Splitting at the commas undoes joining with commas. *)
Lemma split_join (l : list string) :
  l <> [] -> forallb noComma l = true -> JsString.split "," (JsString.join "," l) = l.
Proof.
  induction l as [|x l IH]; [intros Hne; now contradiction Hne|].
  intros _ Hall. cbn [forallb] in Hall. apply andb_prop in Hall. destruct Hall as [Hx Hl].
  destruct l as [|y l].
  - cbn [JsString.join]. now apply split_no_comma.
  - change (JsString.join "," (x :: y :: l))
      with (x ++ String "," (JsString.join "," (y :: l)))%string.
    rewrite (split_before_comma _ _ Hx), IH; [reflexivity | discriminate | exact Hl].
Qed.

(** X2: a list of accepted types joined with commas, as [acceptPropAsAcceptAttr]
    joins it, is accepted by [accepts] like the list itself, provided no entry
    contains a comma and the joined string is not empty (the empty string
    accepts every file). *)
Theorem accepts_joined {A : Type} `{FileLike A} (f : A) (l : list string) :
  forallb noComma l = true ->
  JsString.join "," l <> EmptyString ->
  accepts f (AcceptString (JsString.join "," l)) = accepts f (AcceptArray l).
Proof.
  intros Hall Hne. unfold accepts.
  assert (Harr : acceptedFilesArray (AcceptString (JsString.join "," l)) = Some l).
  { pose proof (split_join l) as Hsplit.
    destruct l as [|x l]; [now contradiction Hne|].
    specialize (Hsplit ltac:(discriminate) Hall).
    unfold acceptedFilesArray.
    destruct (JsString.join "," (x :: l)) eqn:Hjoin; [now contradiction Hne|].
    now rewrite Hsplit. }
  now rewrite Harr.
Qed.

Lemma accepts_joined_witness :
  accepts Sample.txt (AcceptString "image/*,.txt") = true
  /\ accepts Sample.txt (AcceptString (JsString.join "," ["image/*"; ".txt"])) =
     accepts Sample.txt (AcceptArray ["image/*"; ".txt"]).
Proof.
  split; [reflexivity|].
  apply (accepts_joined Sample.txt ["image/*"; ".txt"]); [reflexivity | discriminate].
Defined.

Lemma lowerChar_idempotent (c : ascii) :
  JsString.lowerChar (JsString.lowerChar c) = JsString.lowerChar c.
Proof.
  destruct c as [[] [] [] [] [] [] [] []]; reflexivity.
Qed.

Lemma toLowerCase_idempotent (s : string) :
  JsString.toLowerCase (JsString.toLowerCase s) = JsString.toLowerCase s.
Proof.
  induction s as [|c s IH]; cbn [JsString.toLowerCase]; [reflexivity|].
  now rewrite lowerChar_idempotent, IH.
Qed.

(** X3: [accepts] ignores the case of the file's name and MIME type: a file
    and the same file with both in lower case are accepted by the same
    accepted types. *)
Theorem accepts_ignores_case (f : File) (acceptedFiles : AcceptArg) :
  accepts (lowerCased f) acceptedFiles = accepts f acceptedFiles.
Proof.
  unfold accepts.
  destruct (acceptedFilesArray acceptedFiles) as [l|]; [|reflexivity].
  cbn [get_name get_type File_FileLike lowerCased file_name file_type orEmpty].
  now rewrite !toLowerCase_idempotent.
Qed.

Lemma charAt0Is_length (c : ascii) (s : string) :
  JsString.charAt0Is c s = true -> (1 <= String.length s)%nat.
Proof.
  destruct s; cbn; [discriminate | lia].
Qed.

(** X4: a value without a name, such as the [DataTransferItem] seen while a
    drag is in progress, matches no extension: when every accepted type is an
    extension, [accepts] is false for it, whatever its MIME type. *)
Theorem nameless_matches_no_extension {A : Type} `{FileLike A} (f : A) (l : list string) :
  orEmpty (get_name f) = EmptyString ->
  forallb (fun type => JsString.charAt0Is "." (JsString.toLowerCase (JsString.trim type))) l
  = true ->
  accepts f (AcceptArray l) = false.
Proof.
  intros Hname Hall. unfold accepts. cbn [acceptedFilesArray]. rewrite Hname.
  induction l as [|type l IH]; [reflexivity|].
  cbn [forallb] in Hall. apply andb_prop in Hall. destruct Hall as [Hdot Hl].
  cbn [existsb]. rewrite Hdot, (IH Hl), orb_false_r.
  unfold JsString.endsWith. cbn [JsString.toLowerCase String.length].
  apply charAt0Is_length in Hdot.
  apply andb_false_intro1. apply Nat.leb_gt. lia.
Qed.

(** The item of a dragged image is rejected by [.png] while the drag is in
    progress; the file itself is accepted on drop. *)
Lemma nameless_matches_no_extension_witness :
  accepts Sample.pngItem (AcceptArray [".png"; " .JPG "]) = false
  /\ dragFlags (mkProps (Some [("", [".png"])]) None None true 0%Z None false)
       [Sample.pngItem] = (false, true)
  /\ accepts Sample.png (AcceptArray [".png"; " .JPG "]) = true.
Proof.
  split; [|split; reflexivity].
  apply (nameless_matches_no_extension Sample.pngItem [".png"; " .JPG "]); reflexivity.
Defined.

(** ** Batches *)
Section BatchFacts.

Context {A : Type} `{FileLike A}.
Variable props : Props A.

Lemma filter_split_permutation {B : Type} (p : B -> bool) (l : list B) :
  Permutation (filter p l ++ filter (fun x => negb (p x)) l) l.
Proof.
  induction l as [|x l IH]; cbn [filter]; [constructor|].
  destruct (p x); cbn [negb app].
  - now constructor.
  - apply Permutation_sym. eapply Permutation_trans.
    + apply perm_skip, Permutation_sym, IH.
    + apply Permutation_middle.
Qed.

Lemma filter_split_length {B : Type} (p : B -> bool) (l : list B) :
  length (filter p l) + length (filter (fun x => negb (p x)) l) = length l.
Proof.
  rewrite <- length_app. apply Permutation_length, filter_split_permutation.
Qed.

Lemma setFiles_lengths (files : list A) :
  length (fst (setFiles props files)) + length (snd (setFiles props files)) = length files.
Proof.
  rewrite setFiles_eq. cbv zeta.
  destruct (tooManyFiles (multiple props) (maxFiles props)
              (length (filter (passesChecks props) files))); cbn [fst snd].
  - cbn [length Nat.add]. rewrite length_app, !length_map, Nat.add_comm.
    apply filter_split_length.
  - rewrite length_map. apply filter_split_length.
Qed.

(** X5: [setFiles] loses and duplicates nothing: the accepted files followed
    by the files of the rejections are a permutation of the batch, so the two
    arrays have as many entries as the batch has files; and the accepted
    files are the files that pass the per-file checks, in the order of the
    batch, or none at all. *)
Theorem setFiles_permutation (files : list A) :
  Permutation (fst (setFiles props files) ++ map file (snd (setFiles props files))) files
  /\ length (fst (setFiles props files)) + length (snd (setFiles props files)) = length files
  /\ (fst (setFiles props files) = filter (passesChecks props) files
      \/ fst (setFiles props files) = []).
Proof.
  split; [|split; [apply setFiles_lengths|]]; rewrite setFiles_eq; cbv zeta;
    destruct (tooManyFiles (multiple props) (maxFiles props)
                (length (filter (passesChecks props) files))); cbn [fst snd app].
  - rewrite map_app, map_file_checkRejection, map_file_tooManyRejection.
    eapply Permutation_trans; [apply Permutation_app_comm|].
    apply filter_split_permutation.
  - rewrite map_file_checkRejection. apply filter_split_permutation.
  - now right.
  - now left.
Qed.

(** X6: the accepted files respect the cardinality options: at most one file
    when [multiple] is false, at most [maxFiles] files when [multiple] is true
    and [maxFiles] is at least 1. *)
Theorem accepted_within_cardinality (files : list A) :
  (multiple props = false -> length (fst (setFiles props files)) <= 1)
  /\ (multiple props = true -> (1 <= maxFiles props)%Z ->
      (Z.of_nat (length (fst (setFiles props files))) <= maxFiles props)%Z).
Proof.
  rewrite setFiles_eq. cbv zeta.
  destruct (tooManyFiles (multiple props) (maxFiles props)
              (length (filter (passesChecks props) files))) eqn:Htoo; cbn [fst length].
  - split; intros; lia.
  - unfold tooManyFiles in Htoo. split.
    + intros Hsingle. rewrite Hsingle in Htoo. cbn [negb andb orb] in Htoo.
      rewrite orb_false_r in Htoo. apply Nat.ltb_ge in Htoo. exact Htoo.
    + intros Hmultiple Hmax. rewrite Hmultiple in Htoo. cbn [negb andb orb] in Htoo.
      apply Z.leb_le in Hmax. rewrite Hmax in Htoo. cbn [andb] in Htoo.
      apply Z.ltb_ge in Htoo. exact Htoo.
Qed.

Lemma fileMatchSize_error (f : A) (lo hi : option JsNum) :
  fst (fileMatchSize f lo hi) = false -> snd (fileMatchSize f lo hi) <> None.
Proof.
  unfold fileMatchSize.
  destruct (get_size f) as [size|]; [|discriminate].
  destruct lo as [lo|], hi as [hi|];
    repeat match goal with
           | |- context [if ?b then _ else _] => destruct b
           end;
    cbn [fst snd]; discriminate.
Qed.

Lemma filterErrors_app (l1 l2 : list (option FileError)) :
  filterErrors (l1 ++ l2) = filterErrors l1 ++ filterErrors l2.
Proof.
  induction l1 as [|[e|] l1 IH]; cbn [app filterErrors]; [reflexivity | | exact IH].
  now rewrite IH.
Qed.

Lemma filterErrors_some (es : list FileError) : filterErrors (map Some es) = es.
Proof.
  induction es as [|e es IH]; cbn [map filterErrors]; [reflexivity | now rewrite IH].
Qed.

Lemma checkRejection_errors (f : A) :
  passesChecks props f = false ->
  runValidator (validator props) f <> ManyErrors [] ->
  errors (checkRejection props f) <> [].
Proof.
  unfold passesChecks, checkRejection. cbn [errors]. intros Hfail Hvalid.
  destruct (fst (fileAccepted f (acceptAttr props))) eqn:Htype.
  - destruct (fst (fileMatchSize f (minSize props) (maxSize props))) eqn:Hsize.
    + cbn [andb] in Hfail. apply negb_false_iff in Hfail.
      destruct (runValidator (validator props) f) as [|e|[|e es]];
        cbn [hasCustomErrors concatCustomErrors] in *;
        [discriminate Hfail | | now contradiction Hvalid |];
        rewrite filterErrors_app; cbn [map filterErrors];
        intros Hnil; apply app_eq_nil in Hnil; destruct Hnil as [_ Hnil];
        discriminate Hnil.
    + apply fileMatchSize_error in Hsize.
      destruct (snd (fileMatchSize f (minSize props) (maxSize props))) as [sizeError|];
        [|now contradiction Hsize].
      destruct (runValidator (validator props) f) as [|e|es];
        cbn [concatCustomErrors app]; try rewrite filterErrors_app;
        destruct (snd (fileAccepted f (acceptAttr props)));
        cbn [filterErrors app]; discriminate.
  - rewrite fileAccepted_snd, Htype.
    destruct (runValidator (validator props) f) as [|e|es];
      cbn [concatCustomErrors app filterErrors]; discriminate.
Qed.

(** X7: when the validator never returns the empty array, every rejection of
    [setFiles] has at least one error. *)
Theorem rejections_have_errors (files : list A) :
  (forall f, runValidator (validator props) f <> ManyErrors []) ->
  forall rejection, In rejection (snd (setFiles props files)) -> errors rejection <> [].
Proof.
  intros Hvalid rejection. rewrite setFiles_eq. cbv zeta.
  assert (Hfailed : In rejection
            (map (checkRejection props)
               (filter (fun f => negb (passesChecks props f)) files)) ->
          errors rejection <> []).
  { intros Hin. apply in_map_iff in Hin. destruct Hin as (f & <- & Hin).
    apply filter_In in Hin. destruct Hin as [_ Hfail].
    apply negb_true_iff in Hfail. now apply checkRejection_errors. }
  destruct (tooManyFiles (multiple props) (maxFiles props)
              (length (filter (passesChecks props) files))); cbn [snd]; [|exact Hfailed].
  intros Hin. apply in_app_iff in Hin. destruct Hin as [Hin | Hin]; [now apply Hfailed|].
  apply in_map_iff in Hin. destruct Hin as (f & <- & _). discriminate.
Qed.

Lemma passesChecks_split (f : A) :
  passesChecks props f =
  fst (fileAccepted f (acceptAttr props))
  && fst (fileMatchSize f (minSize props) (maxSize props))
  && validatorPasses props f.
Proof. reflexivity. Qed.

Lemma filter_all {B : Type} (p : B -> bool) (l : list B) :
  forallb p l = true -> filter p l = l /\ filter (fun x => negb (p x)) l = [].
Proof.
  induction l as [|x l IH]; cbn [forallb filter]; [now split|].
  intros Hall. apply andb_prop in Hall. destruct Hall as [Hx Hl].
  rewrite Hx. cbn [negb]. destruct (IH Hl) as [-> ->]. now split.
Qed.

Lemma filter_none {B : Type} (p : B -> bool) (l : list B) :
  filter (fun x => negb (p x)) l = [] -> forallb p l = true.
Proof.
  induction l as [|x l IH]; cbn [forallb filter]; [reflexivity|].
  destruct (p x); cbn [negb andb]; [exact IH | discriminate].
Qed.

(** X8: the test made while dragging agrees with the drop:
    [allFilesAccepted] is true for a batch exactly when [setFiles] rejects
    none of its files, and the accepted files are then the whole batch. *)
Theorem all_accepted_iff_no_rejection (files : list A) :
  (allFilesAccepted files (acceptAttr props) (minSize props) (maxSize props)
     (multiple props) (maxFiles props) (validator props) = true
   <-> snd (setFiles props files) = [])
  /\ (snd (setFiles props files) = [] -> fst (setFiles props files) = files).
Proof.
  rewrite allFilesAccepted_eq, <- andb_assoc, <- forallb_andb.
  assert (Hpass : forallb
            (fun x => fst (fileAccepted x (acceptAttr props))
                      && fst (fileMatchSize x (minSize props) (maxSize props))
                      && validatorPasses props x) files
          = forallb (passesChecks props) files) by reflexivity.
  rewrite Hpass. clear Hpass.
  rewrite setFiles_eq. cbv zeta.
  destruct (tooManyFiles (multiple props) (maxFiles props)
              (length (filter (passesChecks props) files))) eqn:Htoo; cbn [fst snd].
  - assert (Hsome : filter (passesChecks props) files <> []).
    { intros Hnil. rewrite Hnil in Htoo. cbn [length] in Htoo.
      rewrite tooManyFiles_one in Htoo by lia. discriminate Htoo. }
    assert (Hrej : map (checkRejection props)
                     (filter (fun f => negb (passesChecks props f)) files)
                   ++ map tooManyRejection (filter (passesChecks props) files) <> []).
    { intros Hnil. apply app_eq_nil in Hnil. destruct Hnil as [_ Hnil].
      apply map_eq_nil in Hnil. now apply Hsome. }
    split; [split|].
    + intros Hall. apply andb_prop in Hall. destruct Hall as [Hcard Hall].
      destruct (filter_all _ _ Hall) as [Hsame _]. rewrite Hsame in Htoo.
      rewrite Htoo in Hcard. discriminate Hcard.
    + intros Hnil. now contradiction Hrej.
    + intros Hnil. now contradiction Hrej.
  - split; [split|].
    + intros Hall. apply andb_prop in Hall. destruct Hall as [_ Hall].
      destruct (filter_all _ _ Hall) as [_ Hnone]. now rewrite Hnone.
    + intros Hnil. apply map_eq_nil in Hnil. pose proof (filter_none _ _ Hnil) as Hall.
      destruct (filter_all _ _ Hall) as [Hsame _]. rewrite Hsame in Htoo.
      now rewrite Htoo, Hall.
    + intros Hnil. apply map_eq_nil in Hnil. pose proof (filter_none _ _ Hnil) as Hall.
      now destruct (filter_all _ _ Hall) as [Hsame _].
Qed.

(** X9: the observers of a drop.  [onDrop] is called first, for every batch,
    the empty one included; [onDropRejected] follows exactly when there is a
    rejection and [onDropAccepted] exactly when a file is accepted, so for a
    batch that is not empty at least one of the two is called. *)
Theorem drop_observer_calls (files : list A) :
  setFilesCalls props [] = [CallOnDrop [] []]
  /\ (exists rest,
         setFilesCalls props files =
         CallOnDrop (fst (setFiles props files)) (snd (setFiles props files)) :: rest
         /\ forall call, In call rest ->
              (call = CallOnDropRejected (snd (setFiles props files))
               /\ snd (setFiles props files) <> [])
              \/ (call = CallOnDropAccepted (fst (setFiles props files))
                  /\ fst (setFiles props files) <> []))
  /\ (files <> [] ->
      In (CallOnDropRejected (snd (setFiles props files))) (setFilesCalls props files)
      \/ In (CallOnDropAccepted (fst (setFiles props files))) (setFilesCalls props files)).
Proof.
  split.
  { unfold setFilesCalls. rewrite setFiles_eq. cbv zeta. cbn [filter length map app].
    now rewrite tooManyFiles_one by lia. }
  pose proof (setFiles_lengths files) as Hlength.
  unfold setFilesCalls.
  destruct (setFiles props files) as [accepted rejections]. cbn [fst snd] in *.
  split.
  - eexists. split; [reflexivity|].
    intros call Hin. apply in_app_iff in Hin.
    destruct rejections as [|r rejections], accepted as [|a accepted];
      cbn [length Nat.ltb Nat.leb In] in Hin;
      destruct Hin as [Hin | Hin]; try contradiction;
      destruct Hin as [<- | []];
      first [left; split; [reflexivity | discriminate]
            | right; split; [reflexivity | discriminate]].
  - intros Hne. destruct files as [|f files]; [now contradiction Hne|].
    destruct rejections as [|r rejections]; [|left; right; now left].
    destruct accepted as [|a accepted]; [cbn [length] in Hlength; lia|].
    right. right. now left.
Qed.

End BatchFacts.

Lemma accepted_within_cardinality_witness :
  length (fst (setFiles Sample.atMostTwo [Sample.png; Sample.txt])) = 2
  /\ (Z.of_nat (length (fst (setFiles Sample.atMostTwo [Sample.png; Sample.txt]))) <= 2)%Z.
Proof.
  split; [reflexivity|].
  apply (proj2 (accepted_within_cardinality Sample.atMostTwo [Sample.png; Sample.txt]));
    [reflexivity | cbn; lia].
Defined.

Lemma rejections_have_errors_witness :
  errors {| file := Sample.txt;
            errors := [{| code := "file-invalid-type";
                          message := "File type must be image/*" |}] |} <> [].
Proof.
  apply (rejections_have_errors Sample.imagesOnly [Sample.png; Sample.txt]).
  - intros f. discriminate.
  - left. reflexivity.
Defined.

(** A validator that returns the empty array rejects the file with no error
    at all. *)
Lemma rejection_without_errors_sample :
  setFiles (withValidator Sample.atMostTwo (Some (fun _ => ManyErrors []))) [Sample.png] =
  ([], [{| file := Sample.png; errors := [] |}]).
Proof. reflexivity. Qed.

Lemma all_accepted_iff_no_rejection_witness :
  allFilesAccepted [Sample.png; Sample.txt] (acceptAttr Sample.atMostTwo)
    (minSize Sample.atMostTwo) (maxSize Sample.atMostTwo) (multiple Sample.atMostTwo)
    (maxFiles Sample.atMostTwo) (validator Sample.atMostTwo) = true
  /\ fst (setFiles Sample.atMostTwo [Sample.png; Sample.txt]) = [Sample.png; Sample.txt].
Proof.
  pose proof (all_accepted_iff_no_rejection Sample.atMostTwo [Sample.png; Sample.txt])
    as [Hiff Hall].
  split.
  - apply Hiff. reflexivity.
  - apply Hall. reflexivity.
Defined.

Lemma drop_observer_calls_witness :
  In (CallOnDropRejected (snd (setFiles Sample.atMostTwo [Sample.png; Sample.txt; Sample.pdf])))
    (setFilesCalls Sample.atMostTwo [Sample.png; Sample.txt; Sample.pdf])
  \/ In (CallOnDropAccepted (fst (setFiles Sample.atMostTwo [Sample.png; Sample.txt; Sample.pdf])))
       (setFilesCalls Sample.atMostTwo [Sample.png; Sample.txt; Sample.pdf]).
Proof.
  apply (proj2 (proj2 (drop_observer_calls Sample.atMostTwo
                         [Sample.png; Sample.txt; Sample.pdf]))).
  discriminate.
Defined.

(** ** Descriptors *)

Lemma withMimeType_size (f : File) : file_size (withMimeType f) = file_size f.
Proof.
  unfold withMimeType.
  destruct (negb (file_name f =? "")%string && JsString.hasDot (file_name f)
            && (file_type f =? "")%string); [|reflexivity].
  destruct (mapGet COMMON_MIME_TYPES _) as [type|]; [|reflexivity].
  now destruct (type =? "")%string.
Qed.

Lemma withMimeType_keeps_type (f : File) :
  file_type f <> EmptyString -> withMimeType f = f.
Proof.
  intros Htype. unfold withMimeType.
  apply String.eqb_neq in Htype. rewrite Htype. now rewrite andb_false_r.
Qed.

(** A file with the name and the type of an inferred one needs no
    inference. *)
Lemma withMimeType_fixed (f g : File) :
  file_name g = file_name (withMimeType f) ->
  file_type g = file_type (withMimeType f) ->
  withMimeType g = g.
Proof.
  unfold withMimeType at 1 2.
  destruct (negb (file_name f =? "")%string && JsString.hasDot (file_name f)
            && (file_type f =? "")%string) eqn:Hcond.
  - destruct (mapGet COMMON_MIME_TYPES
                (JsString.toLowerCase (JsString.lastPiece (JsString.split "." (file_name f)))))
      as [type|] eqn:Hget.
    + destruct (type =? "")%string eqn:Hempty.
      * intros Hname Htype. unfold withMimeType.
        now rewrite Hname, Htype, Hcond, Hget, Hempty.
      * cbn [file_name file_type]. intros Hname Htype. unfold withMimeType.
        now rewrite Htype, Hempty, andb_false_r.
    + intros Hname Htype. unfold withMimeType.
      now rewrite Hname, Htype, Hcond, Hget.
  - intros Hname Htype. unfold withMimeType.
    now rewrite Hname, Htype, Hcond.
Qed.

Lemma toFileWithPath_type (f : File) (path : option string) :
  file_type (toFileWithPath f path) = file_type (withMimeType f).
Proof.
  unfold toFileWithPath. now destruct (file_path (withMimeType f)).
Qed.

Lemma toFileWithPath_has_path (f : File) (path : option string) :
  file_path (toFileWithPath f path) <> None.
Proof.
  unfold toFileWithPath.
  destruct (file_path (withMimeType f)) eqn:Hpath; cbn [file_path]; [|discriminate].
  rewrite Hpath. discriminate.
Qed.

(** X10: a descriptor is made once.  [toFileWithPath] applied to its own
    result, with whatever path, changes nothing; it keeps the name and the
    size of the file, a MIME type that is not empty, and a [path] the file
    already has. *)
Theorem toFileWithPath_once (f : File) (path again : option string) :
  toFileWithPath (toFileWithPath f path) again = toFileWithPath f path
  /\ file_name (toFileWithPath f path) = file_name f
  /\ file_size (toFileWithPath f path) = file_size f
  /\ (file_type f <> EmptyString -> file_type (toFileWithPath f path) = file_type f)
  /\ (forall own, file_path f = Some own -> file_path (toFileWithPath f path) = Some own).
Proof.
  split; [|split; [|split; [|split]]].
  - assert (Hfixed : withMimeType (toFileWithPath f path) = toFileWithPath f path).
    { apply (withMimeType_fixed f).
      - now rewrite toFileWithPath_name, withMimeType_name.
      - apply toFileWithPath_type. }
    unfold toFileWithPath at 1. rewrite Hfixed.
    pose proof (toFileWithPath_has_path f path) as Hpath.
    now destruct (file_path (toFileWithPath f path)).
  - apply toFileWithPath_name.
  - unfold toFileWithPath.
    destruct (file_path (withMimeType f)); cbn [file_size]; apply withMimeType_size.
  - intros Htype. now rewrite toFileWithPath_type, withMimeType_keeps_type.
  - intros own Hown. unfold toFileWithPath. rewrite withMimeType_path, Hown.
    now rewrite withMimeType_path.
Qed.

Lemma toFileWithPath_once_witness :
  file_type (toFileWithPath Sample.png (Some "/photos/cat.png")) = "image/png"
  /\ file_path (toFileWithPath Sample.electronFile (Some "/photos/raw.png")) =
     Some "/home/u/photos/2024/raw/raw.png".
Proof.
  split.
  - apply (proj1 (proj2 (proj2 (proj2
             (toFileWithPath_once Sample.png (Some "/photos/cat.png") None))))).
    discriminate.
  - apply (proj2 (proj2 (proj2 (proj2
             (toFileWithPath_once Sample.electronFile (Some "/photos/raw.png") None))))).
    reflexivity.
Defined.

(** A file without a type gets the type of its extension, whatever the case
    of the extension. *)
Lemma withMimeType_sample :
  file_type (withMimeType (mkFile "Report.final.PDF" "" 1 None None)) = "application/pdf"
  /\ file_type (withMimeType (mkFile "README" "" 1 None None)) = ""
  /\ file_type (withMimeType (mkFile "a.unknown" "" 1 None None)) = "".
Proof. repeat split. Qed.

(** ** Drops of several items *)

Lemma item_settles (item : DataTransferItem) :
  option_map flattenValue (toFilePromises item) =
  if itemReadable item then Some (itemFiles item) else None.
Proof.
  unfold toFilePromises, itemReadable, itemFiles, fromDataTransferItem.
  destruct (webkitGetAsEntry item) as [[[fullPath file | reads]|]|].
  - now destruct (getAsFile item).
  - rewrite <- fromDirEntry_settles.
    destruct (fromDirEntry reads) as [found|]; cbn [andThen option_map resolve]; [|reflexivity].
    now rewrite flattenValue_dirValue.
  - now destruct (getAsFile item).
  - now destruct (getAsFile item).
Qed.

Lemma items_settle (l : list DataTransferItem) :
  option_map flatten (all (map toFilePromises l)) =
  if forallb itemReadable l then Some (flat_map itemFiles l) else None.
Proof.
  induction l as [|item l IH]; [reflexivity|].
  cbn [map all forallb flat_map].
  pose proof (item_settles item) as Hitem.
  destruct (toFilePromises item) as [v|]; cbn [option_map andThen] in Hitem |- *.
  - destruct (itemReadable item); [|discriminate Hitem]. injection Hitem as Hitem.
    destruct (all (map toFilePromises l)) as [vs|];
      cbn [option_map andThen resolve andb] in IH |- *.
    + destruct (forallb itemReadable l); [|discriminate IH]. injection IH as IH.
      now rewrite flatten_cons, Hitem, IH.
    + now destruct (forallb itemReadable l).
  - now destruct (itemReadable item).
Qed.

(** X11: a transfer with an item list.  On [drop] the items of kind [file]
    are read in order: if one of them cannot be read (its [getAsFile()] is
    [null], or a read below a directory fails) the whole extraction is
    rejected; otherwise the result is the descriptors of the items, one item
    after the other, without the ignored names.  On any other event the
    result is the items of kind [file] themselves, in order, and nothing is
    read. *)
Theorem item_list_extraction (l : list DataTransferItem) (fileList : JsList File) :
  getDataTransferFiles {| items := ListOf l; files := fileList |} "drop" =
    (if forallb itemReadable (filter isFileKind l) then
       resolve (map ExtractedFile (noIgnoredFiles (flat_map itemFiles (filter isFileKind l))))
     else reject)
  /\ (forall type,
         type <> "drop" ->
         getDataTransferFiles {| items := ListOf l; files := fileList |} type =
         resolve (map ExtractedItem (filter isFileKind l))).
Proof.
  split.
  - unfold getDataTransferFiles. cbn [items].
    change (negb ("drop" =? "drop")%string) with false. cbv iota.
    change (filter (fun item => (kind item =? "file")%string) l) with (filter isFileKind l).
    pose proof (items_settle (filter isFileKind l)) as Hitems.
    destruct (all (map toFilePromises (filter isFileKind l))) as [vs|];
      cbn [option_map andThen] in Hitems |- *.
    + destruct (forallb itemReadable (filter isFileKind l)); [|discriminate Hitems].
      injection Hitems as Hitems. now rewrite Hitems.
    + now destruct (forallb itemReadable (filter isFileKind l)).
  - intros type Htype. unfold getDataTransferFiles. cbn [items].
    apply String.eqb_neq in Htype. now rewrite Htype.
Qed.

Lemma item_list_extraction_witness :
  getDataTransferFiles
    {| items := ListOf [Sample.pngItem]; files := ListOf [] |} "dragenter" =
    resolve [ExtractedItem Sample.pngItem]
  /\ getDataTransferFiles
       {| items := ListOf [Sample.pngItem]; files := ListOf [] |} "drop" = reject.
Proof.
  split.
  - apply (proj2 (item_list_extraction [Sample.pngItem] (ListOf []))). discriminate.
  - exact (proj1 (item_list_extraction [Sample.pngItem] (ListOf []))).
Defined.

Lemma itemFiles_have_path (item : DataTransferItem) (f : File) :
  In f (itemFiles item) -> file_path f <> None.
Proof.
  unfold itemFiles.
  assert (Hone : forall file, In f (match file with
                                     | Some g => [toFileWithPath g None]
                                     | None => []
                                     end) -> file_path f <> None).
  { intros [g|] Hin; [|contradiction Hin].
    destruct Hin as [<- | Hin]; [|contradiction Hin].
    apply toFileWithPath_has_path. }
  destruct (webkitGetAsEntry item) as [[[fullPath file | reads]|]|]; try apply Hone.
  intros Hin. apply in_map_iff in Hin. destruct Hin as (located & <- & _).
  apply toFileWithPath_has_path.
Qed.

Lemma described_have_path (l : list File) (f : File) :
  In (ExtractedFile f) (map (fun file => ExtractedFile (toFileWithPath file None)) l) ->
  file_path f <> None.
Proof.
  intros Hin. apply in_map_iff in Hin. destruct Hin as (g & Heq & _).
  injection Heq as <-. apply toFileWithPath_has_path.
Qed.

(** X12: every file [fromEvent] resolves with has a [path], whatever the
    event: a drop or another drag event, with or without an item list, an
    input change event, or an array of file handles. *)
Theorem extracted_files_have_path (evt : Evt) (out : list Extracted) (f : File) :
  fromEvent evt = resolve out -> In (ExtractedFile f) out -> file_path f <> None.
Proof.
  unfold resolve. destruct evt as [type dt | targetFiles | handles |]; cbn [fromEvent].
  - unfold getDataTransferFiles.
    assert (Hflat : forall found : list File,
               (forall g, In g found -> file_path g <> None) ->
               In (ExtractedFile f) (map ExtractedFile (noIgnoredFiles found)) ->
               file_path f <> None).
    { intros found Hfound Hin. apply in_map_iff in Hin. destruct Hin as (g & Heq & Hin).
      injection Heq as <-. apply filter_In in Hin. apply Hfound. exact (proj1 Hin). }
    assert (Hlist : forall l : list File,
               In (ExtractedFile f)
                 (map ExtractedFile
                    (noIgnoredFiles (map (fun file => toFileWithPath file None) l))) ->
               file_path f <> None).
    { intros l. apply Hflat. intros g Hin. apply in_map_iff in Hin.
      destruct Hin as (h & <- & _). apply toFileWithPath_has_path. }
    destruct (items dt) as [| |l].
    + destruct (fromList (files dt)); cbn [andThen resolve]; [|discriminate].
      intros Hout. injection Hout as <-. apply Hlist.
    + destruct (fromList (files dt)); cbn [andThen resolve]; [|discriminate].
      intros Hout. injection Hout as <-. apply Hlist.
    + destruct (negb (type =? "drop")%string).
      * unfold resolve. intros Hout. injection Hout as <-. intros Hin.
        apply in_map_iff in Hin. destruct Hin as (item & Heq & _). discriminate Heq.
      * pose proof (items_settle (filter (fun item => (kind item =? "file")%string) l))
          as Hitems.
        destruct (all _) as [vs|]; cbn [option_map andThen resolve] in Hitems |- *;
          [|discriminate].
        destruct (forallb itemReadable _); [|discriminate Hitems].
        injection Hitems as Hitems. rewrite Hitems.
        intros Hout. injection Hout as <-. apply Hflat.
        intros g Hin. apply in_flat_map in Hin. destruct Hin as (item & _ & Hin).
        now apply (itemFiles_have_path item).
  - unfold getInputFiles.
    destruct (fromList targetFiles); cbn [andThen resolve]; [|discriminate].
    intros Hout. injection Hout as <-. apply described_have_path.
  - destruct (everyHasGetFile handles) as [[|]|]; cbn [andThen]; [| |discriminate].
    + unfold getFsHandleFiles.
      destruct (all _); cbn [andThen resolve]; [|discriminate].
      intros Hout. injection Hout as <-. apply described_have_path.
    + unfold resolve. intros Hout. injection Hout as <-. intros Hin. contradiction Hin.
  - unfold resolve. intros Hout. injection Hout as <-. intros Hin. contradiction Hin.
Qed.

Lemma extracted_files_have_path_witness :
  file_path {| file_name := "notes.txt"; file_type := "text/plain"; file_size := 7;
               file_path := Some "notes.txt"; file_webkitRelativePath := None |} <> None.
Proof.
  apply (extracted_files_have_path (ChangeEvt (ListOf [Sample.txt]))
           [ExtractedFile (toFileWithPath Sample.txt None)]).
  - reflexivity.
  - left. reflexivity.
Defined.

(** ** The drag decision and the size bounds *)

Lemma forallb_ext_in {B : Type} (p q : B -> bool) (l : list B) :
  (forall x, In x l -> p x = q x) -> forallb p l = forallb q l.
Proof.
  induction l as [|x l IH]; cbn [forallb]; [reflexivity|].
  intros Hext. rewrite (Hext x (or_introl eq_refl)), IH; [reflexivity|].
  intros y Hy. apply Hext. now right.
Qed.

(** X13: while a drag is in progress the size bounds decide nothing: for
    values without a size, such as [DataTransferItem]s, the drag decision is
    the same for all [minSize] and [maxSize]. *)
Theorem drag_ignores_size_bounds {A : Type} `{FileLike A} (props : Props A)
  (lo hi : option JsNum) (files : list A) :
  (forall f, In f files -> get_size f = None) ->
  dragFlags (withSizeBounds props lo hi) files = dragFlags props files.
Proof.
  intros Hsize. unfold dragFlags, allFilesAccepted.
  cbn [withSizeBounds minSize maxSize multiple maxFiles validator].
  change (acceptAttr (withSizeBounds props lo hi)) with (acceptAttr props).
  assert (Hsame :
    forallb
      (fun file =>
         fst (fileAccepted file (acceptAttr props)) && fst (fileMatchSize file lo hi)
         && negb (hasCustomErrors (runValidator (validator props) file))) files =
    forallb
      (fun file =>
         fst (fileAccepted file (acceptAttr props))
         && fst (fileMatchSize file (minSize props) (maxSize props))
         && negb (hasCustomErrors (runValidator (validator props) file))) files).
  { apply forallb_ext_in. intros f Hin.
    now rewrite !(fileMatchSize_unknown f _ _ (Hsize f Hin)). }
  now rewrite Hsame.
Qed.

(** An item of a file that the size bounds will reject on drop is accepted
    while it is dragged. *)
Lemma drag_ignores_size_bounds_witness :
  dragFlags (withSizeBounds defaultProps (Some (Num 1000)) (Some (Num 2000)))
    [Sample.pngItem] = (true, false)
  /\ setFiles (withSizeBounds defaultProps (Some (Num 1000)) (Some (Num 2000)))
       [Sample.png] =
     ([], [{| file := Sample.png;
              errors := [{| code := "file-too-small";
                            message := "File is smaller than 1000 bytes" |}] |}]).
Proof.
  split; [|reflexivity].
  rewrite (drag_ignores_size_bounds defaultProps (Some (Num 1000)) (Some (Num 2000))
             [Sample.pngItem]).
  - reflexivity.
  - intros f _. reflexivity.
Defined.

(** ** Composed handlers *)
Section ComposeFacts.

Variable W : Type.
Variable eventOf : W -> EventFlags.

Lemma composed_when_stopped (fns : list (option (W -> W))) (w : W) :
  isPropagationStopped (eventOf w) = true ->
  fst (composeEventHandlers eventOf fns w) = w.
Proof.
  intros Hstopped. destruct fns as [|fn fns]; cbn [composeEventHandlers]; [reflexivity|].
  rewrite Hstopped. cbn [negb].
  destruct fn; now rewrite Hstopped.
Qed.

(** X14: the contract of [composeEventHandlers].  When propagation is already
    stopped no handler runs; once a handler has stopped propagation the
    handlers after it do not run, whatever they are; and when propagation is
    never stopped every handler has run, in order. *)
Theorem compose_handlers_contract (fns : list (option (W -> W))) (w : W) :
  (isPropagationStopped (eventOf w) = true ->
   fst (composeEventHandlers eventOf fns w) = w)
  /\ (forall more after,
         composeEventHandlers eventOf fns w = (after, true) ->
         composeEventHandlers eventOf (fns ++ more) w = (after, true))
  /\ (snd (composeEventHandlers eventOf fns w) = false ->
      fst (composeEventHandlers eventOf fns w) = runAll fns w).
Proof.
  split; [apply composed_when_stopped | split].
  - intros more after. revert w.
    induction fns as [|fn fns IH]; intros w; cbn [composeEventHandlers app].
    + discriminate.
    + destruct (isPropagationStopped
                  (eventOf match fn with
                           | Some f => if negb (isPropagationStopped (eventOf w)) then f w else w
                           | None => w
                           end)); [trivial | apply IH].
  - revert w. induction fns as [|fn fns IH]; intros w; [reflexivity|].
    cbn [composeEventHandlers]. unfold runAll. cbn [fold_left].
    destruct (isPropagationStopped (eventOf w)) eqn:Hstopped; cbn [negb].
    + destruct fn; rewrite Hstopped; discriminate.
    + destruct fn as [f|].
      * destruct (isPropagationStopped (eventOf (f w))); [discriminate | apply IH].
      * rewrite Hstopped. apply IH.
Qed.

End ComposeFacts.

(** A handler of the user that stops propagation keeps the handler of the
    hook from running; one that does not is followed by it. *)
Lemma compose_handlers_contract_witness :
  composeEventHandlers fst
    [Some (fun w : EventFlags * nat => (mkEventFlags (Some true) None, snd w));
     Some (fun w : EventFlags * nat => (fst w, S (snd w)))]
    (mkEventFlags (Some false) None, 0) =
    ((mkEventFlags (Some true) None, 0), true)
  /\ fst (composeEventHandlers fst
            [None; Some (fun w : EventFlags * nat => (fst w, S (snd w)))]
            (mkEventFlags None None, 0)) =
     (mkEventFlags None None, 1).
Proof.
  split.
  - apply (proj1 (proj2 (compose_handlers_contract (EventFlags * nat) fst
                           [Some (fun w => (mkEventFlags (Some true) None, snd w))]
                           (mkEventFlags (Some false) None, 0)))
             [Some (fun w => (fst w, S (snd w)))]).
    reflexivity.
  - apply (proj2 (proj2 (compose_handlers_contract (EventFlags * nat) fst
                           [None; Some (fun w => (fst w, S (snd w)))]
                           (mkEventFlags None None, 0)))).
    reflexivity.
Defined.

(** ** Hovered targets *)

Lemma count_occ_filter (p : Node -> bool) (l : list Node) (x : Node) :
  count_occ Nat.eq_dec (filter p l) x = if p x then count_occ Nat.eq_dec l x else 0.
Proof.
  induction l as [|y l IH]; cbn [filter count_occ]; [now destruct (p x)|].
  destruct (p y) eqn:Hy; cbn [count_occ]; destruct (Nat.eq_dec y x) as [->|Hneq];
    rewrite IH; try rewrite Hy; reflexivity.
Qed.

Lemma count_occ_spliceFirst (target : Node) (l : list Node) (x : Node) :
  count_occ Nat.eq_dec (spliceFirst target l) x =
  if Nat.eqb x target then pred (count_occ Nat.eq_dec l x) else count_occ Nat.eq_dec l x.
Proof.
  induction l as [|y l IH]; cbn [spliceFirst count_occ]; [now destruct (Nat.eqb x target)|].
  destruct (Nat.eqb_spec y target) as [Hy|Hy].
  - destruct (Nat.eqb_spec x target) as [Hx|Hx], (Nat.eq_dec y x) as [Hyx|Hyx];
      try reflexivity; exfalso; congruence.
  - cbn [count_occ]. rewrite IH.
    destruct (Nat.eqb_spec x target) as [Hx|Hx], (Nat.eq_dec y x) as [Hyx|Hyx];
      try reflexivity; exfalso; congruence.
Qed.

(** X15: what [onDragLeaveCb] leaves of the hovered targets.  A target that
    the root no longer contains is dropped altogether; of the other targets
    every occurrence is kept, except that the target of the event loses one
    occurrence, and only one however often it is present. *)
Theorem drag_leave_removes_one (contains : Node -> bool) (dragTargets : list Node)
  (target x : Node) :
  count_occ Nat.eq_dec (dragLeaveTargets contains dragTargets target) x =
  if contains x then
    if Nat.eqb x target then pred (count_occ Nat.eq_dec dragTargets x)
    else count_occ Nat.eq_dec dragTargets x
  else 0.
Proof.
  unfold dragLeaveTargets. rewrite count_occ_spliceFirst, count_occ_filter.
  destruct (contains x), (Nat.eqb x target); reflexivity.
Qed.

Lemma filter_all_contained (contains : Node -> bool) (l : list Node) :
  (forall t, In t l -> contains t = true) -> filter contains l = l.
Proof.
  induction l as [|y l IH]; cbn [filter]; [reflexivity|].
  intros Hall. rewrite (Hall y (or_introl eq_refl)), IH; [reflexivity|].
  intros t Ht. apply Hall. now right.
Qed.

Lemma spliceFirst_last (target : Node) (l : list Node) :
  ~ In target l -> spliceFirst target (l ++ [target]) = l.
Proof.
  induction l as [|y l IH]; cbn [app spliceFirst]; intros Hnot.
  - now rewrite Nat.eqb_refl.
  - destruct (Nat.eqb_spec y target) as [->|_].
    + contradiction Hnot. now left.
    + rewrite IH; [reflexivity|]. intros Hin. apply Hnot. now right.
Qed.

Lemma filter_snoc_contained (contains : Node -> bool) (l : list Node) (target : Node) :
  contains target = true -> filter contains (l ++ [target]) = filter contains l ++ [target].
Proof.
  intros Htarget. rewrite filter_app. cbn [filter]. now rewrite Htarget.
Qed.

(** X16: entering a target and leaving it again.  When the root contains the
    target and the target was not hovered before, the leave leaves exactly
    the targets hovered before that the root still contains (all of them,
    when the root contains them all); the state is untouched while one of
    these remains, and when none remains, also because the root has lost
    them, the three drag flags are cleared and nothing else changes. *)
Theorem drag_enter_then_leave {A : Type} (contains : Node -> bool)
  (dragTargets : list Node) (target : Node) (state : State A) :
  contains target = true ->
  ~ In target dragTargets ->
  fst (onDragLeaveCb contains target (dragEnterTargets dragTargets target) state) =
    filter contains dragTargets
  /\ ((forall t, In t dragTargets -> contains t = true) ->
      fst (onDragLeaveCb contains target (dragEnterTargets dragTargets target) state) =
      dragTargets)
  /\ (filter contains dragTargets <> [] ->
      snd (onDragLeaveCb contains target (dragEnterTargets dragTargets target) state) =
      state)
  /\ (filter contains dragTargets = [] ->
      snd (onDragLeaveCb contains target (dragEnterTargets dragTargets target) state) =
      {| isFocused := isFocused state;
         isFileDialogActive := isFileDialogActive state;
         isDragActive := false;
         isDragAccept := false;
         isDragReject := false;
         acceptedFiles := acceptedFiles state;
         fileRejections := fileRejections state |}).
Proof.
  intros Htarget Hnew.
  assert (Htargets :
    dragLeaveTargets contains (dragEnterTargets dragTargets target) target =
    filter contains dragTargets).
  { unfold dragLeaveTargets, dragEnterTargets.
    rewrite (filter_snoc_contained contains dragTargets target Htarget).
    apply spliceFirst_last. intros Hin. apply filter_In in Hin. now apply Hnew. }
  unfold onDragLeaveCb. rewrite Htargets.
  split; [|split; [|split]].
  - now destruct (filter contains dragTargets).
  - intros Hall. rewrite (filter_all_contained contains dragTargets Hall).
    now destruct dragTargets.
  - intros Hsome. destruct (filter contains dragTargets); [now contradiction Hsome|].
    reflexivity.
  - intros Hnone. now rewrite Hnone.
Qed.

(** With the nodes up to 9 inside the root: after entering and leaving node
    7, a hovered node 3 is kept and the state is untouched, a hovered node 12
    outside the root is dropped; and when node 12 was the only one hovered,
    nothing remains and the drag flags are cleared. *)
Lemma drag_enter_then_leave_witness :
  onDragLeaveCb (fun t => Nat.leb t 9) 7 (dragEnterTargets [3; 12] 7) Sample.someState =
    ([3], Sample.someState)
  /\ fst (onDragLeaveCb (fun t => Nat.leb t 9) 7 (dragEnterTargets [3] 7)
            Sample.someState) = [3]
  /\ onDragLeaveCb (fun t => Nat.leb t 9) 7 (dragEnterTargets [12] 7) Sample.someState =
     ([],
      {| isFocused := true;
         isFileDialogActive := true;
         isDragActive := false;
         isDragAccept := false;
         isDragReject := false;
         acceptedFiles := [Sample.png];
         fileRejections := [tooManyRejection Sample.txt] |}).
Proof.
  assert (Hnot : forall l : list Node, forallb (fun t => negb (Nat.eqb t 7)) l = true ->
                 ~ In 7 l).
  { intros l Hall Hin. apply (proj1 (forallb_forall _ _) Hall) in Hin. discriminate Hin. }
  pose proof (drag_enter_then_leave (fun t => Nat.leb t 9) [3; 12] 7 Sample.someState
                eq_refl (Hnot [3; 12] eq_refl)) as (Hkept & _ & Hsame & _).
  pose proof (drag_enter_then_leave (fun t => Nat.leb t 9) [3] 7 Sample.someState
                eq_refl (Hnot [3] eq_refl)) as (_ & Hall & _ & _).
  pose proof (drag_enter_then_leave (fun t => Nat.leb t 9) [12] 7 Sample.someState
                eq_refl (Hnot [12] eq_refl)) as (Hnone & _ & _ & Hcleared).
  split; [|split].
  - rewrite (surjective_pairing (onDragLeaveCb _ 7 (dragEnterTargets [3; 12] 7) _)).
    rewrite Hkept, Hsame; [reflexivity | discriminate].
  - apply Hall. intros t [<- | []]. reflexivity.
  - rewrite (surjective_pairing (onDragLeaveCb _ 7 (dragEnterTargets [12] 7) _)).
    rewrite Hnone, (Hcleared eq_refl). reflexivity.
Defined.

(** A target entered twice, as Firefox may do, is still hovered after one
    leave, and the drag stays active. *)
Lemma drag_leave_twice_sample :
  onDragLeaveCb (fun _ => true) 7 [7; 3; 7] Sample.someState = ([3; 7], Sample.someState)
  /\ fst (onDragLeaveCb (fun t => Nat.eqb t 3) 7 [7; 3; 7] Sample.someState) = [3].
Proof. split; reflexivity. Qed.

(** ** The file dialog *)
Section DialogFacts.

Context {A : Type} `{FileLike A}.
Variable props : Props A.

Lemma opened_then_closed (state : State A) :
  reducer (reducer state openDialog) closeDialog = initialState.
Proof. reflexivity. Qed.

Lemma setFilesState_opened_closed (files : list A) (state : State A) :
  reducer (setFilesState props files (reducer state openDialog)) closeDialog =
  setFilesState props files initialState.
Proof.
  unfold setFilesState. now destruct (setFiles props files).
Qed.

(** X17: cancelling the picker.  When the picker is in use and its promise is
    rejected with an abort error, the dialog is opened and closed again: the
    state ends as the initial state, so the files accepted or rejected before
    are gone, the picker stays in use, and the calls are [onFileDialogOpen]
    and then [onFileDialogCancel], with no error reported. *)
Theorem picker_cancelled (hasInput : bool) (e : JsError) (d : Dialog A) :
  fsAccessApiWorks d = true ->
  isAbort e = true ->
  openFileDialog props hasInput (PickerFailed e) d =
  {| dialogState := initialState;
     fsAccessApiWorks := true;
     calls := calls d ++ [CallFileDialogOpen; CallFileDialogCancel] |}.
Proof.
  intros Hworks Habort. unfold openFileDialog. rewrite Hworks, Habort.
  now rewrite opened_then_closed, <- app_assoc.
Qed.

(** X18: the picker is given up for good.  Once [fsAccessApiWorks] is false no
    call of [openFileDialog] sets it again.  A security error of the picker
    sets it to false, leaves the dialog marked active, and clicks the input
    element, or reports an error when there is none; from then on
    [openFileDialog] opens the dialog through the input element, whatever
    the picker would have done. *)
Theorem picker_given_up (hasInput : bool) (outcome : PickerOutcome A) (d : Dialog A) :
  (fsAccessApiWorks d = false ->
   fsAccessApiWorks (openFileDialog props hasInput outcome d) = false)
  /\ (forall e,
         fsAccessApiWorks d = true -> isAbort e = false -> isSecurityError e = true ->
         openFileDialog props hasInput (PickerFailed e) d =
         {| dialogState := reducer initialState openDialog;
            fsAccessApiWorks := false;
            calls :=
              calls d
                ++ [CallFileDialogOpen;
                    if hasInput then CallInputClick else CallOnError NoInputProvided] |}
         /\ openFileDialog props true outcome
              (openFileDialog props hasInput (PickerFailed e) d) =
            {| dialogState := reducer initialState openDialog;
               fsAccessApiWorks := false;
               calls :=
                 calls d
                   ++ [CallFileDialogOpen;
                       if hasInput then CallInputClick else CallOnError NoInputProvided;
                       CallFileDialogOpen; CallInputClick] |}).
Proof.
  split.
  - intros Hworks. unfold openFileDialog. rewrite Hworks.
    destruct hasInput; [reflexivity | exact Hworks].
  - intros e Hworks Habort Hsecurity.
    assert (Hfirst :
      openFileDialog props hasInput (PickerFailed e) d =
      {| dialogState := reducer initialState openDialog;
         fsAccessApiWorks := false;
         calls :=
           calls d
             ++ [CallFileDialogOpen;
                 if hasInput then CallInputClick else CallOnError NoInputProvided] |}).
    { unfold openFileDialog. rewrite Hworks, Habort, Hsecurity.
      now rewrite <- app_assoc. }
    split; [exact Hfirst|].
    rewrite Hfirst. unfold openFileDialog. cbn [fsAccessApiWorks dialogState calls].
    now rewrite <- app_assoc.
Qed.

(** X19: the other outcomes of the picker.  When it resolves with files the
    state ends as the initial state with the two arrays of the batch, the
    dialog marked inactive, and the calls are [onFileDialogOpen] followed by
    those of [setFiles].  When it fails with an error that is neither an abort
    nor a security error, the error is reported and the dialog stays marked
    active. *)
Theorem picker_settled (hasInput : bool) (d : Dialog A) :
  fsAccessApiWorks d = true ->
  (forall files,
      openFileDialog props hasInput (PickerFiles files) d =
      {| dialogState := setFilesState props files initialState;
         fsAccessApiWorks := true;
         calls := calls d ++ CallFileDialogOpen :: setFilesCalls props files |})
  /\ (forall e,
         isAbort e = false -> isSecurityError e = false ->
         openFileDialog props hasInput (PickerFailed e) d =
         {| dialogState := reducer initialState openDialog;
            fsAccessApiWorks := true;
            calls := calls d ++ [CallFileDialogOpen; CallOnError (Caught e)] |}).
Proof.
  intros Hworks. split.
  - intros files. unfold openFileDialog. rewrite Hworks.
    now rewrite setFilesState_opened_closed, <- app_assoc.
  - intros e Habort Hsecurity. unfold openFileDialog.
    rewrite Hworks, Habort, Hsecurity. now rewrite <- app_assoc.
Qed.

(** X20: cancelling the dialog of the input element.  [onWindowFocus] does
    nothing while the picker is in use or the dialog is not marked active.
    After the dialog was opened through the input element, a window focus
    that finds the input without files closes the dialog, which leaves the
    initial state, and calls [onFileDialogCancel]; one that finds files
    changes nothing. *)
Theorem window_focus_cancels (inputFiles : option nat) (outcome : PickerOutcome A)
  (d : Dialog A) :
  (fsAccessApiWorks d = true -> onWindowFocus inputFiles d = d)
  /\ (isFileDialogActive (dialogState d) = false -> onWindowFocus inputFiles d = d)
  /\ (fsAccessApiWorks d = false ->
      onWindowFocus (Some 0) (openFileDialog props true outcome d) =
        {| dialogState := initialState;
           fsAccessApiWorks := false;
           calls := calls d ++ [CallFileDialogOpen; CallInputClick; CallFileDialogCancel] |}
      /\ forall n,
           onWindowFocus (Some (S n)) (openFileDialog props true outcome d) =
           openFileDialog props true outcome d).
Proof.
  split; [|split].
  - intros Hworks. unfold onWindowFocus. now rewrite Hworks.
  - intros Hinactive. unfold onWindowFocus. now rewrite Hinactive, andb_false_r.
  - intros Hworks. unfold openFileDialog. rewrite Hworks.
    split; [|reflexivity].
    unfold onWindowFocus. cbn [fsAccessApiWorks dialogState calls negb andb
                                 reducer isFileDialogActive Nat.eqb].
    now rewrite <- app_assoc.
Qed.

End DialogFacts.

Lemma picker_cancelled_witness :
  openFileDialog Sample.atMostTwo true
    (PickerFailed (mkJsError true "AbortError" 0))
    {| dialogState := Sample.someState; fsAccessApiWorks := true; calls := [] |} =
  {| dialogState := initialState;
     fsAccessApiWorks := true;
     calls := [CallFileDialogOpen; CallFileDialogCancel] |}.
Proof.
  apply (picker_cancelled Sample.atMostTwo true (mkJsError true "AbortError" 0)
           {| dialogState := Sample.someState; fsAccessApiWorks := true; calls := [] |});
    reflexivity.
Defined.

Lemma picker_given_up_witness :
  fsAccessApiWorks
    (openFileDialog Sample.atMostTwo false (PickerFiles [Sample.png])
       (openFileDialog Sample.atMostTwo false
          (PickerFailed (mkJsError true "SecurityError" 18))
          {| dialogState := initialState; fsAccessApiWorks := true; calls := [] |})) = false
  /\ calls
       (openFileDialog Sample.atMostTwo false
          (PickerFailed (mkJsError true "SecurityError" 18))
          {| dialogState := initialState; fsAccessApiWorks := true; calls := [] |}) =
     [CallFileDialogOpen; CallOnError NoInputProvided].
Proof.
  pose proof (picker_given_up Sample.atMostTwo false (PickerFiles [Sample.png])
                {| dialogState := initialState; fsAccessApiWorks := true; calls := [] |})
    as [_ Hsecurity].
  destruct (Hsecurity (mkJsError true "SecurityError" 18) eq_refl eq_refl eq_refl)
    as [Hfirst _].
  split.
  - apply (proj1 (picker_given_up Sample.atMostTwo false (PickerFiles [Sample.png]) _)).
    now rewrite Hfirst.
  - now rewrite Hfirst.
Defined.

Lemma picker_settled_witness :
  openFileDialog Sample.imagesOnly true (PickerFiles [Sample.png; Sample.txt])
    {| dialogState := Sample.someState; fsAccessApiWorks := true; calls := [] |} =
  {| dialogState := setFilesState Sample.imagesOnly [Sample.png; Sample.txt] initialState;
     fsAccessApiWorks := true;
     calls := CallFileDialogOpen :: setFilesCalls Sample.imagesOnly [Sample.png; Sample.txt] |}.
Proof.
  apply (proj1 (picker_settled Sample.imagesOnly true
                  {| dialogState := Sample.someState; fsAccessApiWorks := true;
                     calls := [] |} eq_refl)).
Defined.

Lemma window_focus_cancels_witness :
  onWindowFocus (Some 0)
    (openFileDialog Sample.atMostTwo true (PickerFiles [])
       {| dialogState := Sample.someState; fsAccessApiWorks := false; calls := [] |}) =
  {| dialogState := initialState;
     fsAccessApiWorks := false;
     calls := [CallFileDialogOpen; CallInputClick; CallFileDialogCancel] |}.
Proof.
  apply (proj1 (proj2 (proj2 (window_focus_cancels Sample.atMostTwo (Some 0)
                                (PickerFiles [])
                                {| dialogState := Sample.someState;
                                   fsAccessApiWorks := false; calls := [] |}))
                  eq_refl)).
Defined.

(** ** Drag and drop in sequence *)

(** X21: a drop settles the state.  Whatever the state was and whatever an
    earlier [dragenter] made of it, after a drop whose files are processed the
    state is the initial one with the two arrays of the batch: not focused,
    no dialog, no drag.  A [dragenter] whose extraction resolves only after
    the drop marks the drag active again and keeps the arrays of the drop. *)
Theorem drop_settles_state {A : Type} `{FileLike A} (props : Props A)
  (stopped : bool) (dragged files : list A) (state : State A) :
  onDropCb props false (Some files) (onDragEnterCb props stopped dragged state) =
    {| isFocused := false;
       isFileDialogActive := false;
       isDragActive := false;
       isDragAccept := false;
       isDragReject := false;
       acceptedFiles := fst (setFiles props files);
       fileRejections := snd (setFiles props files) |}
  /\ onDragEnterCb props false dragged (onDropCb props false (Some files) state) =
       {| isFocused := false;
          isFileDialogActive := false;
          isDragActive := true;
          isDragAccept := fst (dragFlags props dragged);
          isDragReject := snd (dragFlags props dragged);
          acceptedFiles := fst (setFiles props files);
          fileRejections := snd (setFiles props files) |}.
Proof.
  unfold onDropCb, onDragEnterCb, setFilesState. cbn [andb reducer].
  destruct (setFiles props files) as [accepted rejections].
  destruct (dragFlags props dragged) as [accepts' rejects].
  split; reflexivity.
Qed.

(** ** The [accept] option *)

Lemma wordChar_not_slash_dot (c : ascii) :
  JsString.isWordChar c = true -> Ascii.eqb c "/" = false /\ Ascii.eqb c "." = false.
Proof.
  destruct c as [[] [] [] [] [] [] [] []]; intros Hword; try discriminate Hword;
    split; reflexivity.
Qed.

Lemma hasMimeShape_wildcard (p : string) :
  JsString.allWordChars p = true -> hasMimeShape (p ++ "/*") = false.
Proof.
  induction p as [|c p IH]; [reflexivity|].
  cbn [JsString.allWordChars]. intros Hword.
  apply andb_prop in Hword. destruct Hword as [Hc Hp]. specialize (IH Hp).
  destruct p as [|d p].
  - cbn. now rewrite !andb_false_r.
  - cbn [JsString.allWordChars] in Hp. apply andb_prop in Hp. destruct Hp as [Hd _].
    destruct (wordChar_not_slash_dot d Hd) as [Hslash _].
    change ((String c (String d p)) ++ "/*")%string
      with (String c (String d (p ++ "/*")))%string.
    change ((String d p) ++ "/*")%string with (String d (p ++ "/*"))%string in IH.
    destruct (p ++ "/*")%string as [|e rest] eqn:Htail.
    + destruct p; discriminate Htail.
    + cbn [hasMimeShape] in IH |- *. rewrite Hslash, IH.
      now rewrite andb_false_r.
Qed.

Lemma isExt_wildcard (p : string) :
  JsString.allWordChars p = true -> isExt (p ++ "/*") = false.
Proof.
  induction p as [|c p IH]; [reflexivity|].
  cbn [JsString.allWordChars]. intros Hword.
  apply andb_prop in Hword. destruct Hword as [Hc Hp].
  destruct (wordChar_not_slash_dot c Hc) as [_ Hdot].
  change ((String c p) ++ "/*")%string with (String c (p ++ "/*"))%string.
  cbn [isExt]. rewrite Hdot, (IH Hp). now rewrite andb_false_r.
Qed.

Lemma append_same_suffix (p q s : string) :
  (p ++ s)%string = (q ++ s)%string -> p = q.
Proof.
  assert (Hlen : forall a b, String.length (a ++ b) = String.length a + String.length b).
  { intros a b. induction a as [|x a IHa]; cbn; [reflexivity | now rewrite IHa]. }
  revert q. induction p as [|c p IH]; intros [|d q] Heq.
  - reflexivity.
  - apply (f_equal String.length) in Heq. rewrite !Hlen in Heq.
    cbn [String.length] in Heq. lia.
  - apply (f_equal String.length) in Heq. rewrite !Hlen in Heq.
    cbn [String.length] in Heq. lia.
  - cbn [String.append] in Heq. injection Heq as -> Heq. now rewrite (IH q Heq).
Qed.

Lemma eqb_same_suffix (p q s : string) :
  ((p ++ s) =? (q ++ s))%string = (p =? q)%string.
Proof.
  destruct (String.eqb_spec p q) as [->|Hneq].
  - apply String.eqb_refl.
  - apply String.eqb_neq. intros Heq. apply Hneq. now apply append_same_suffix with s.
Qed.

(** X22: which wildcards count.  For a primary type made of word characters,
    [type/*] is a MIME type for [isMIMEType] only when the type is [audio],
    [video], [image] or [text], and it is never an extension.  So another
    wildcard alone in the [accept] option, such as [application/*], is left
    out of the accept attribute, which is then the empty string: every file
    is accepted. *)
Theorem wildcard_mime_types {A : Type} `{FileLike A} (p : string) :
  JsString.allWordChars p = true ->
  isMIMEType (p ++ "/*") =
    ((p =? "audio") || (p =? "video") || (p =? "image") || (p =? "text"))%string
  /\ isExt (p ++ "/*") = false
  /\ (isMIMEType (p ++ "/*") = false ->
      forall (exts : list string) (f : A),
        forallb (fun e => negb (isMIMEType e || isExt e)) exts = true ->
        acceptPropAsAcceptAttr (Some [((p ++ "/*")%string, exts)]) = AcceptString ""
        /\ fileAccepted f (acceptPropAsAcceptAttr (Some [((p ++ "/*")%string, exts)])) =
           (true, None)).
Proof.
  intros Hword.
  assert (Hmime : isMIMEType (p ++ "/*") =
                  ((p =? "audio") || (p =? "video") || (p =? "image") || (p =? "text"))%string).
  { unfold isMIMEType. rewrite (hasMimeShape_wildcard p Hword), orb_false_r.
    change "audio/*" with ("audio" ++ "/*")%string.
    change "video/*" with ("video" ++ "/*")%string.
    change "image/*" with ("image" ++ "/*")%string.
    change "text/*" with ("text" ++ "/*")%string.
    now rewrite !eqb_same_suffix. }
  split; [exact Hmime | split; [now apply isExt_wildcard|]].
  intros Hnot exts f Hexts.
  assert (Hattr : acceptPropAsAcceptAttr (Some [((p ++ "/*")%string, exts)]) = AcceptString "").
  { unfold acceptPropAsAcceptAttr. cbn [fold_left fst snd app filter].
    rewrite Hnot, (isExt_wildcard p Hword). cbn [orb].
    replace (filter (fun v => isMIMEType v || isExt v) exts) with (@nil string);
      [reflexivity|].
    clear -Hexts. induction exts as [|e exts IH]; [reflexivity|].
    cbn [forallb filter] in *. apply andb_prop in Hexts. destruct Hexts as [He Hexts].
    apply negb_true_iff in He. rewrite He. now apply IH. }
  split; [exact Hattr|].
  rewrite Hattr. unfold fileAccepted. rewrite accepts_empty_string.
  now rewrite orb_true_r.
Qed.

Lemma wildcard_mime_types_witness :
  isMIMEType "application/*" = false
  /\ acceptPropAsAcceptAttr (Some [("application/*", [])]) = AcceptString ""
  /\ fileAccepted Sample.txt (acceptPropAsAcceptAttr (Some [("application/*", [])])) =
     (true, None).
Proof.
  pose proof (@wildcard_mime_types File _ "application" eq_refl) as (Hmime & _ & Hall).
  split; [exact Hmime|].
  exact (Hall Hmime [] Sample.txt eq_refl).
Defined.

Lemma objectSet_in (agg : Accept) (mimeType : string) (ext : list string)
  (entry : string * list string) :
  In entry (objectSet agg mimeType ext) -> In entry agg \/ entry = (mimeType, ext).
Proof.
  induction agg as [|[k v] agg IH]; cbn [objectSet].
  - intros [<- | []]. now right.
  - destruct (String.eqb_spec k mimeType) as [->|_].
    + intros [<- | Hin]; [now right | left; now right].
    + intros [<- | Hin]; [left; now left|].
      destruct (IH Hin) as [Hagg | Hnew]; [left; now right | now right].
Qed.

Lemma fold_objectSet_in (l : list (string * list string)) :
  forall (agg : Accept) (entry : string * list string),
    In entry (fold_left (fun agg entry => objectSet agg (fst entry) (snd entry)) l agg) ->
    In entry agg \/ In entry l.
Proof.
  induction l as [|[k v] l IH]; intros agg entry; cbn [fold_left fst snd].
  - now left.
  - intros Hin. destruct (IH _ _ Hin) as [Hset | Hl]; [|right; now right].
    destruct (objectSet_in _ _ _ _ Hset) as [Hagg | ->]; [now left | right; now left].
Qed.

Lemma fold_entries_in (entries : Accept) :
  forall (start : list string) (v : string),
    In v (fold_left (fun a entry => a ++ fst entry :: snd entry) entries start) <->
    In v start \/ exists entry, In entry entries /\ (v = fst entry \/ In v (snd entry)).
Proof.
  induction entries as [|entry entries IH]; intros start v; cbn [fold_left].
  - split; [now left | intros [Hin | (entry & [] & _)]; exact Hin].
  - rewrite IH, in_app_iff. cbn [In]. split.
    + intros [[Hstart | [<- | Hext]] | (other & Hin & Hv)].
      * now left.
      * right. exists entry. split; [now left | now left].
      * right. exists entry. split; [now left | now right].
      * right. exists other. split; [now right | exact Hv].
    + intros [Hstart | (other & [<- | Hin] & [-> | Hext])].
      * left. now left.
      * left. right. now left.
      * left. right. now right.
      * right. exists other. split; [exact Hin | now left].
      * right. exists other. split; [exact Hin | now right].
Qed.

(** X23: what the picker offers, the accept attribute lists.  The option of
    [pickerOptionsFromAccept] is one type, described as [Files]; each of its
    entries is an entry of the [accept] option whose key is a MIME type and
    whose extensions are all extensions, and this key and these extensions
    are among the entries that [acceptPropAsAcceptAttr] joins. *)
Theorem picker_types_in_accept_attr (entries : Accept) :
  acceptPropAsAcceptAttr (Some entries) =
    AcceptString (JsString.join "," (acceptAttrEntries entries))
  /\ exists acceptForPicker,
       pickerOptionsFromAccept (Some entries) =
         Some [{| description := "Files"; pickerAccept := acceptForPicker |}]
       /\ forall mimeType exts,
            In (mimeType, exts) acceptForPicker ->
            In (mimeType, exts) entries
            /\ isMIMEType mimeType = true
            /\ In mimeType (acceptAttrEntries entries)
            /\ forall ext, In ext exts ->
                 isExt ext = true /\ In ext (acceptAttrEntries entries).
Proof.
  split; [reflexivity|].
  eexists. split; [reflexivity|].
  intros mimeType exts Hin.
  apply fold_objectSet_in in Hin. destruct Hin as [[] | Hin].
  apply filter_In in Hin. cbn [fst snd] in Hin. destruct Hin as [Hin Hok].
  apply andb_prop in Hok. destruct Hok as [Hmime Hexts].
  split; [exact Hin | split; [exact Hmime | split]].
  - unfold acceptAttrEntries. apply filter_In. split.
    + apply fold_entries_in. right. exists (mimeType, exts). split; [exact Hin | now left].
    + now rewrite Hmime.
  - intros ext Hext.
    assert (Hisext : isExt ext = true) by exact (proj1 (forallb_forall _ _) Hexts ext Hext).
    split; [exact Hisext|].
    unfold acceptAttrEntries. apply filter_In. split.
    + apply fold_entries_in. right. exists (mimeType, exts). split; [exact Hin | now right].
    + now rewrite Hisext, orb_true_r.
Qed.

(** An entry with an extension that is none is left out of the picker's
    types as a whole, while the accept attribute keeps its key. *)
Lemma picker_types_sample :
  pickerOptionsFromAccept (Some [("image/*", [".png"; ".jpg"]); ("text/plain", ["txt"])]) =
    Some [{| description := "Files"; pickerAccept := [("image/*", [".png"; ".jpg"])] |}]
  /\ acceptPropAsAcceptAttr (Some [("image/*", [".png"; ".jpg"]); ("text/plain", ["txt"])]) =
     AcceptString "image/*,.png,.jpg,text/plain"
  /\ pickerOptionsFromAccept None = None.
Proof. repeat split. Qed.

Lemma picker_types_in_accept_attr_witness :
  In ".png" (acceptAttrEntries [("image/*", [".png"]); ("nonsense", ["x"])])
  /\ isExt ".png" = true.
Proof.
  destruct (proj2 (picker_types_in_accept_attr [("image/*", [".png"]); ("nonsense", ["x"])]))
    as (acceptForPicker & Hpicker & Hentries).
  cbv in Hpicker. injection Hpicker as <-.
  destruct (Hentries "image/*" [".png"] (or_introl eq_refl)) as (_ & _ & _ & Hexts).
  destruct (Hexts ".png" (or_introl eq_refl)) as [Hext Hin].
  split; [exact Hin | exact Hext].
Defined.
